(** * GitHub Projects V2 tools (pkg/github/projects.go)

    A shallow embedding of the option encoder, the page-info translator, the
    special-field filter, the update-payload builder and the item handlers of
    [pkg/github/projects.go], with the properties the specification states
    about them. *)

From Stdlib Require Import ZArith QArith Lia Ascii String.
From stdpp Require Import gmap strings list sorting pretty.

#[local] Set Warnings "-register-all".
#[local] Open Scope Z_scope.

(** ** Go values *)

(** A Go [error] is represented by its message. *)
Definition error : Type := string.

(** The outcome of a Go function returning [(T, error)]: callers in this file
    never look at the value when the error is non-nil. *)
Inductive result (A : Type) : Type :=
  | Ok (a : A)
  | Err (e : error).
Arguments Ok {A} a.
Arguments Err {A} e.

#[global] Instance result_ret : MRet result := @Ok.
#[global] Instance result_bind : MBind result := λ A B f m,
  match m with
  | Ok a => f a
  | Err e => Err e
  end.

(** The dynamic values an [any] holds after JSON decoding: [nil], [bool],
    [float64], [string], [[]any] and [map[string]any].  A [float64] is
    represented by the rational it denotes; a map value may be the nil map
    ([None]). *)
Inductive any : Type :=
  | ANil
  | ABool (b : bool)
  | AFloat64 (f : Q)
  | AString (s : string)
  | ASlice (l : list any)
  | AMap (m : option (gmap string any)).

(** Go's [%T] of a dynamic value. *)
Definition type_name (v : any) : string :=
  match v with
  | ANil => "<nil>"
  | ABool _ => "bool"
  | AFloat64 _ => "float64"
  | AString _ => "string"
  | ASlice _ => "[]interface {}"
  | AMap _ => "map[string]interface {}"
  end.

(** [int] is 64 bits wide. *)
Definition int_min : Z := - 2 ^ 63.
Definition int_max : Z := 2 ^ 63 - 1.
Definition fits_int (z : Z) : Prop := int_min ≤ z ≤ int_max.

(** The conversion [int(f)] of a [float64]: the fraction is discarded
    (truncation towards zero).  When the truncated value does not fit [int],
    Go leaves the result to the implementation; statements about converted
    values are therefore made under [fits_int]. *)
Definition float64_to_int (f : Q) : Z := Z.quot (Qnum f) (Z.pos (Qden f)).

(** Reading a Go map: a nil map reads like an empty one. *)
Definition map_index (m : option (gmap string any)) (k : string) : option any :=
  match m with
  | None => None
  | Some m => m !! k
  end.

(** ** Tool-call parameters *)

Record CallToolRequest : Type := { GetArguments : gmap string any }.

(** Modelled from the spec: [OptionalParam[string]], the repository's
    parameter helper (not in this file).  An absent parameter is the empty
    string; a present parameter of another type is a parameter error. *)
Definition OptionalParam_string (r : CallToolRequest) (p : string) : result string :=
  match GetArguments r !! p with
  | None => Ok ""
  | Some (AString s) => Ok s
  | Some v => Err ("parameter " +:+ p +:+ " is not of type string, is " +:+ type_name v)
  end.

(** Modelled from the spec: [OptionalParam[float64]], as above for numbers. *)
Definition OptionalParam_float64 (r : CallToolRequest) (p : string) : result Q :=
  match GetArguments r !! p with
  | None => Ok 0%Q
  | Some (AFloat64 f) => Ok f
  | Some v => Err ("parameter " +:+ p +:+ " is not of type float64, is " +:+ type_name v)
  end.

(** Modelled from the spec: [OptionalIntParam], the number converted to
    [int]. *)
Definition OptionalIntParam (r : CallToolRequest) (p : string) : result Z :=
  v ← OptionalParam_float64 r p;
  mret (float64_to_int v).

(** Modelled from the spec: [OptionalIntParamWithDefault], which gives the
    default when the parameter is absent or zero. *)
Definition OptionalIntParamWithDefault (r : CallToolRequest) (p : string) (d : Z) : result Z :=
  v ← OptionalIntParam r p;
  if decide (v = 0) then mret d else mret v.

(** Modelled from the spec: [RequiredParam[string]]: a missing, mistyped or
    empty parameter is a parameter error. *)
Definition RequiredParam_string (r : CallToolRequest) (p : string) : result string :=
  match GetArguments r !! p with
  | None => Err ("missing required parameter: " +:+ p)
  | Some (AString s) =>
      if decide (s = "") then Err ("missing required parameter: " +:+ p) else Ok s
  | Some _ => Err ("parameter " +:+ p +:+ " is not of type string")
  end.

(** Modelled from the spec: [RequiredInt]: a required number, converted to
    [int]. *)
Definition RequiredInt (r : CallToolRequest) (p : string) : result Z :=
  match GetArguments r !! p with
  | None => Err ("missing required parameter: " +:+ p)
  | Some (AFloat64 f) =>
      if Qeq_bool f 0 then Err ("missing required parameter: " +:+ p)
      else Ok (float64_to_int f)
  | Some _ => Err ("parameter " +:+ p +:+ " is not of type float64")
  end.

(** Modelled from the spec: [OptionalStringArrayParam]: absent or null is the
    empty list; a list of strings is itself; anything else is a parameter
    error. *)
Definition OptionalStringArrayParam (r : CallToolRequest) (p : string) : result (list string) :=
  match GetArguments r !! p with
  | None | Some ANil => Ok []
  | Some (ASlice l) =>
      foldr (λ v acc,
               match v with
               | AString s => strs ← acc; mret (s :: strs)
               | _ => Err ("parameter " +:+ p +:+ " is not of type string, is " +:+ type_name v)
               end) (Ok []) l
  | Some v => Err ("parameter " +:+ p +:+ " could not be coerced to []string, is " +:+ type_name v)
  end.

(** ** Pagination options *)

Definition MaxProjectsPerPage : Z := 50.

Record paginationOptions : Type := {
  PerPage : Z;      (* url:"per_page,omitempty" *)
  After : string;   (* url:"after,omitempty" *)
  Before : string;  (* url:"before,omitempty" *)
}.

Definition extractPaginationOptions (request : CallToolRequest) : result paginationOptions :=
  perPage ← OptionalIntParamWithDefault request "per_page" MaxProjectsPerPage;
  let perPage := if decide (perPage > MaxProjectsPerPage) then MaxProjectsPerPage else perPage in
  after ← OptionalParam_string request "after";
  before ← OptionalParam_string request "before";
  mret {| PerPage := perPage; After := after; Before := before |}.

(** ** Records of the project API *)

(** Timestamps and users are carried through unchanged. *)
Definition Timestamp : Type := string.

Record projectV2Field : Type := {
  field_ID : option Z;
  field_NodeID : string;
  field_Name : string;
  field_DataType : string;
  field_URL : string;
  field_Options : list (option any);
  field_Configuration : option any;
  field_CreatedAt : option Timestamp;
  field_UpdatedAt : option Timestamp;
}.

Record projectV2ItemFieldValue : Type := {
  value_ID : option Z;
  value_Name : string;
  value_DataType : string;
  value_Value : any;
}.

Record projectV2ItemContentRepository : Type := {
  repo_ID : option Z;
  repo_Name : option string;
  repo_FullName : option string;
  repo_Description : option string;
  repo_HTMLURL : option string;
}.

Record projectV2ItemContent : Type := {
  content_Body : option string;
  content_ClosedAt : option Timestamp;
  content_CreatedAt : option Timestamp;
  content_ID : option Z;
  content_Number : option Z;
  content_Repository : option projectV2ItemContentRepository;
  content_State : option string;
  content_StateReason : option string;
  content_Title : option string;
  content_UpdatedAt : option Timestamp;
  content_URL : option string;
  content_Type : option any;
  content_Labels : list (option any);
  content_Assignees : list (option any);
  content_Milestone : option any;
}.

Record projectV2Item : Type := {
  ArchivedAt : option Timestamp;
  Content : option projectV2ItemContent;
  ContentType : option string;
  CreatedAt : option Timestamp;
  Creator : option any;
  Description : option string;
  Fields : list (option projectV2ItemFieldValue);
  ID : option Z;
  ItemURL : option string;
  NodeID : option string;
  ProjectURL : option string;
  Title : option string;
  UpdatedAt : option Timestamp;
}.

Definition set_Fields (fs : list (option projectV2ItemFieldValue)) (i : projectV2Item) : projectV2Item :=
  {| ArchivedAt := ArchivedAt i; Content := Content i; ContentType := ContentType i;
     CreatedAt := CreatedAt i; Creator := Creator i; Description := Description i;
     Fields := fs; ID := ID i; ItemURL := ItemURL i; NodeID := NodeID i;
     ProjectURL := ProjectURL i; Title := Title i; UpdatedAt := UpdatedAt i |}.

Record newProjectItem : Type := {
  new_ID : Z;         (* json:"id,omitempty" *)
  new_Type : string;  (* json:"type,omitempty" *)
}.

Record updateProjectItem : Type := {
  upd_ID : Z;       (* json:"id" *)
  upd_Value : any;  (* json:"value" *)
}.

Record updateProjectItemPayload : Type := {
  upd_Fields : list updateProjectItem;  (* json:"fields" *)
}.

Record pageInfo : Type := {
  HasNextPage : bool;      (* json:"hasNextPage" *)
  HasPreviousPage : bool;  (* json:"hasPreviousPage" *)
  NextCursor : string;     (* json:"nextCursor,omitempty" *)
  PrevCursor : string;     (* json:"prevCursor,omitempty" *)
}.

Record filterQueryOptions : Type := {
  Query : string;  (* url:"q,omitempty" *)
}.

Record fieldSelectionOptions : Type := {
  FieldIDs : string;  (* Fields, url:"fields,omitempty" *)
}.

Record listProjectItemsOptions : Type := {
  opts_pagination : paginationOptions;
  opts_filter : filterQueryOptions;
  opts_selection : fieldSelectionOptions;
}.

(** The part of a [*github.Response] the handlers look at: the status, the
    outcome of [io.ReadAll(resp.Body)] and the two pagination tokens. *)
Record Response : Type := {
  StatusCode : Z;
  ReadAll_Body : result string;
  resp_After : string;
  resp_Before : string;
}.

(** The fields of a [url.URL]. *)
Record URL : Type := {
  Scheme : string;
  Opaque : string;
  User : option string;
  Host : string;
  Path : string;
  RawPath : string;
  OmitHost : bool;
  ForceQuery : bool;
  RawQuery : string;
  Fragment : string;
  RawFragment : string;
}.

Definition set_RawQuery (q : string) (u : URL) : URL :=
  {| Scheme := Scheme u; Opaque := Opaque u; User := User u; Host := Host u;
     Path := Path u; RawPath := RawPath u; OmitHost := OmitHost u;
     ForceQuery := ForceQuery u; RawQuery := q; Fragment := Fragment u;
     RawFragment := RawFragment u |}.

(** What the handlers hand to [json.Marshal]. *)
Inductive json_input : Type :=
  | ItemsResponse (items : list projectV2Item) (info : pageInfo)
      (* map[string]any{"items": items, "pageInfo": info} *)
  | ItemValue (item : projectV2Item).

(** ** The Go library functions the file calls *)

Class GoLibrary : Type := {
  ToLower : string → string;                  (* strings.ToLower *)
  QueryEscape : string → string;              (* url.QueryEscape *)
  url_Parse : string → result URL;            (* url.Parse *)
  URL_String : URL → string;                  (* u.String() of a url.URL *)
  json_Marshal : json_input → result string;  (* json.Marshal *)
}.

Definition strings_Join (elems : list string) (sep : string) : string :=
  String.concat sep elems.

(** ** Special field types *)

Class DataTyped (T : Type) : Type := getDataType : T → string.

Section field_filter.
Context `{GoLibrary}.

#[export] Instance projectV2Field_getDataType : DataTyped (option projectV2Field) := λ f,
  match f with
  | None => ""
  | Some f => ToLower (field_DataType f)
  end.

#[export] Instance projectV2ItemFieldValue_getDataType :
    DataTyped (option projectV2ItemFieldValue) := λ v,
  match v with
  | None => ""
  | Some v => ToLower (value_DataType v)
  end.
End field_filter.

Definition specialFieldDataTypes : gmap string () :=
  {[ "assignees" := ();
     "labels" := ();
     "linked_pull_requests" := ();
     "milestone" := ();
     "parent_issue" := ();
     "repository" := ();
     "reviewers" := ();
     "sub_issues_progress" := ();
     "title" := () ]}.

(** The keys of [specialFieldDataTypes], listed. *)
Definition special_names : list string :=
  ["assignees"; "labels"; "linked_pull_requests"; "milestone"; "parent_issue";
   "repository"; "reviewers"; "sub_issues_progress"; "title"].

(** The loop of [filterSpecialTypes]: [out] is the slice built so far. *)
Fixpoint filterSpecialTypes_loop `{DataTyped T} (out fields : list T) : list T :=
  match fields with
  | [] => out
  | f :: fields =>
      let dt := getDataType f in
      match specialFieldDataTypes !! dt with
      | Some _ => filterSpecialTypes_loop out fields
      | None => filterSpecialTypes_loop (out ++ [f]) fields
      end
  end.

Definition filterSpecialTypes `{DataTyped T} (fields : list T) : list T :=
  if decide (length fields = 0%nat) then fields
  else filterSpecialTypes_loop [] fields.

(** ** Page information *)

Definition buildPageInfo (resp : Response) : pageInfo :=
  {| HasNextPage := bool_decide (resp_After resp ≠ "");
     HasPreviousPage := bool_decide (resp_Before resp ≠ "");
     NextCursor := resp_After resp;
     PrevCursor := resp_Before resp |}.

(** The JSON object [encoding/json] writes for a [pageInfo], as the struct
    tags direct: the two booleans always, each cursor unless it is empty. *)
Definition pageInfo_json (p : pageInfo) : gmap string any :=
  let o : gmap string any :=
    {[ "hasNextPage" := ABool (HasNextPage p);
       "hasPreviousPage" := ABool (HasPreviousPage p) ]} in
  let o := if decide (NextCursor p = "") then o else <["nextCursor" := AString (NextCursor p)]> o in
  if decide (PrevCursor p = "") then o else <["prevCursor" := AString (PrevCursor p)]> o.

(** ** Request bodies *)

Definition toNewProjectType `{GoLibrary} (projType : string) : string :=
  let s := ToLower projType in
  if decide (s = "issue") then "Issue"
  else if decide (s = "pull_request") then "PullRequest"
  else "".

Definition buildUpdateProjectItem (input : option (gmap string any)) : result updateProjectItem :=
  match input with
  | None => Err "updated_field must be an object"
  | Some _ =>
      match map_index input "id" with
      | None => Err "updated_field.id is required"
      | Some idField =>
          match idField with
          | AFloat64 idFieldAsFloat64 =>
              match map_index input "value" with
              | None => Err "updated_field.value is required"
              | Some valueField =>
                  Ok {| upd_ID := float64_to_int idFieldAsFloat64; upd_Value := valueField |}
              end
          | _ => Err "updated_field.id must be a number"
          end
      end
  end.

(** The JSON [encoding/json] writes for the two request bodies, as the struct
    tags direct. *)
Definition newProjectItem_json (i : newProjectItem) : gmap string any :=
  let o : gmap string any := ∅ in
  let o := if decide (new_ID i = 0) then o else <["id" := AFloat64 (inject_Z (new_ID i))]> o in
  if decide (new_Type i = "") then o else <["type" := AString (new_Type i)]> o.

Definition updateProjectItem_json (i : updateProjectItem) : any :=
  AMap (Some {[ "id" := AFloat64 (inject_Z (upd_ID i)); "value" := upd_Value i ]}).

Definition updateProjectItemPayload_json (p : updateProjectItemPayload) : gmap string any :=
  {[ "fields" := ASlice (updateProjectItem_json <$> upd_Fields p) ]}.

(** ** Query strings *)

(** The values of the tagged option fields: [int] and [string]. *)
Inductive url_value : Type :=
  | UrlInt (n : Z)
  | UrlString (s : string).

Definition isEmptyValue (v : url_value) : bool :=
  match v with
  | UrlInt n => bool_decide (n = 0)
  | UrlString s => bool_decide (s = "")
  end.

Definition valueString (v : url_value) : string :=
  match v with
  | UrlInt n => pretty n
  | UrlString s => s
  end.

(** A struct field with its [url] tag. *)
Record url_field : Type := {
  tag_name : string;
  tag_omitempty : bool;
  tag_value : url_value;
}.

(** The tagged fields of an options struct in the order the query encoder
    visits them: the struct's own fields, then those of its embedded
    structs. *)
Class UrlTagged (T : Type) : Type := url_fields : T → list url_field.

#[global] Instance paginationOptions_url : UrlTagged paginationOptions := λ o,
  [ {| tag_name := "per_page"; tag_omitempty := true; tag_value := UrlInt (PerPage o) |};
    {| tag_name := "after"; tag_omitempty := true; tag_value := UrlString (After o) |};
    {| tag_name := "before"; tag_omitempty := true; tag_value := UrlString (Before o) |} ].

#[global] Instance filterQueryOptions_url : UrlTagged filterQueryOptions := λ o,
  [ {| tag_name := "q"; tag_omitempty := true; tag_value := UrlString (Query o) |} ].

#[global] Instance fieldSelectionOptions_url : UrlTagged fieldSelectionOptions := λ o,
  [ {| tag_name := "fields"; tag_omitempty := true; tag_value := UrlString (FieldIDs o) |} ].

#[global] Instance listProjectItemsOptions_url : UrlTagged listProjectItemsOptions := λ o,
  url_fields (opts_pagination o) ++ url_fields (opts_filter o) ++ url_fields (opts_selection o).

(** [url.Values] with its [Add]. *)
Definition Values_Add (key value : string) (v : gmap string (list string)) :
    gmap string (list string) :=
  <[key := default [] (v !! key) ++ [value]]> v.

(** [query.Values] on a struct: a field tagged [omitempty] is skipped when its
    value is the zero value. *)
Definition reflectValue `{UrlTagged T} (values : gmap string (list string)) (o : T) :
    gmap string (list string) :=
  foldl (λ values f,
           if tag_omitempty f && isEmptyValue (tag_value f) then values
           else Values_Add (tag_name f) (valueString (tag_value f)) values)
        values (url_fields o).

Definition query_Values `{UrlTagged T} (o : T) : gmap string (list string) :=
  reflectValue ∅ o.

(** Byte-wise order on strings, the order [Encode] sorts the keys by. *)
Definition string_le (x y : string) : Prop := String.leb x y = true.

#[global] Instance string_le_dec : RelDecision string_le :=
  λ x y, decide (String.leb x y = true).

(** The key/value pairs of [Encode], keys ascending. *)
Definition Encode_pairs (v : gmap string (list string)) : list (string * string) :=
  key ← merge_sort string_le (elements (dom v));
  value ← default [] (v !! key);
  [(key, value)].

Definition Values_Encode `{GoLibrary} (v : gmap string (list string)) : string :=
  strings_Join ((λ kv, QueryEscape kv.1 +:+ "=" +:+ QueryEscape kv.2) <$> Encode_pairs v) "&".

(** The [opts any] of [addOptions]: a nil pointer or an options struct (for a
    struct [query.Values] does not fail). *)
Inductive options (T : Type) : Type :=
  | NilPointer
  | Options (o : T).
Arguments NilPointer {T}.
Arguments Options {T} o.

Definition addOptions `{GoLibrary} `{UrlTagged T} (s : string) (opts : options T) : result string :=
  match opts with
  | NilPointer => Ok s
  | Options o =>
      u ← url_Parse s;
      let qs := query_Values o in
      mret (URL_String (set_RawQuery (Values_Encode qs) u))
  end.

(** ** The API client *)

Inductive request_body : Type :=
  | NewItemBody (item : newProjectItem)
  | UpdateBody (payload : updateProjectItemPayload).

(** A request as [client.NewRequest] is asked to build it. *)
Record http_Request : Type := {
  Method : string;
  Target : string;
  Body : option request_body;
}.

(** What [client.Do(ctx, req, &v)] gives back: an error, with the response if
    there is one, or the response with the decoded [v]. *)
Inductive DoResult (V : Type) : Type :=
  | DoError (resp : option Response) (err : error)
  | DoDone (resp : Response) (v : V).
Arguments DoError {V} resp err.
Arguments DoDone {V} resp v.

Record Client : Type := {
  NewRequest_error : http_Request → option error;
  Do_items : http_Request → DoResult (list projectV2Item);
  Do_item : http_Request → DoResult projectV2Item;
  Do_nothing : http_Request → DoResult ();
}.

Definition NewRequest (client : Client) (method urlStr : string) (body : option request_body) :
    result http_Request :=
  let r := {| Method := method; Target := urlStr; Body := body |} in
  match NewRequest_error client r with
  | Some err => Err err
  | None => Ok r
  end.

(** ** Handlers *)

Definition ProjectUpdateFailedError : string := "failed to update a project item".
Definition ProjectAddFailedError : string := "failed to add a project item".
Definition ProjectDeleteFailedError : string := "failed to delete a project item".
Definition ProjectListFailedError : string := "failed to list project items".

Definition StatusOK : Z := 200.
Definition StatusCreated : Z := 201.
Definition StatusNoContent : Z := 204.

Inductive CallToolResult : Type :=
  | NewToolResultText (text : string)
  | NewToolResultError (text : string)
  | NewGitHubAPIErrorResponse (message : string) (resp : option Response) (err : error).

(** A handler runs with the list of requests issued so far; a statement
    either returns from the handler or goes on with a value. *)
Inductive step (A : Type) : Type :=
  | Return (r : result CallToolResult)
  | Next (a : A).
Arguments Return {A} r.
Arguments Next {A} a.

Definition handler (A : Type) : Type := list http_Request → list http_Request * step A.

#[global] Instance handler_ret : MRet handler := λ A a issued, (issued, Next a).
#[global] Instance handler_bind : MBind handler := λ A B f m issued,
  match m issued with
  | (issued, Return r) => (issued, Return r)
  | (issued, Next a) => f a issued
  end.

(** [return r] *)
Definition ret {A} (r : result CallToolResult) : handler A := λ issued, (issued, Return r).

(** [if err != nil { return mcp.NewToolResultError(err.Error()), nil }] *)
Definition check {A} (r : result A) : handler A :=
  match r with
  | Ok a => mret a
  | Err e => ret (Ok (NewToolResultError e))
  end.

(** [if err != nil { return nil, fmt.Errorf("msg: %w", err) }] *)
Definition wrap {A} (msg : string) (r : result A) : handler A :=
  match r with
  | Ok a => mret a
  | Err e => ret (Err (msg +:+ ": " +:+ e))
  end.

(** [client.Do]: the request is issued. *)
Definition Do {V} (do : http_Request → DoResult V) (r : http_Request) : handler (DoResult V) :=
  λ issued, (issued ++ [r], Next (do r)).

Record Outcome : Type := {
  issued : list http_Request;
  returned : result CallToolResult;
}.

Definition run (h : handler False) : Outcome :=
  match h [] with
  | (reqs, Return r) => {| issued := reqs; returned := r |}
  | (_, Next a) => match a with end
  end.

Definition items_path (ownerType owner : string) (projectNumber : Z) : string :=
  if decide (ownerType = "org")
  then "orgs/" +:+ owner +:+ "/projectsV2/" +:+ pretty projectNumber +:+ "/items"
  else "users/" +:+ owner +:+ "/projectsV2/" +:+ pretty projectNumber +:+ "/items".

Definition item_path (ownerType owner : string) (projectNumber itemID : Z) : string :=
  items_path ownerType owner projectNumber +:+ "/" +:+ pretty itemID.

Section handlers.
Context `{GoLibrary}.
Variable getClient : result Client.

Definition ListProjectItems (req : CallToolRequest) : handler False :=
  owner ← check (RequiredParam_string req "owner");
  ownerType ← check (RequiredParam_string req "owner_type");
  projectNumber ← check (RequiredInt req "project_number");
  queryStr ← check (OptionalParam_string req "query");
  fields ← check (OptionalStringArrayParam req "fields");
  pagination ← check (extractPaginationOptions req);
  client ← check getClient;
  let url := items_path ownerType owner projectNumber in
  let opts :=
    {| opts_pagination := pagination;
       opts_filter := {| Query := queryStr |};
       opts_selection := {| FieldIDs := strings_Join fields "," |} |} in
  url ← wrap "failed to add options to request" (addOptions url (Options opts));
  httpRequest ← wrap "failed to create request" (NewRequest client "GET" url None);
  r ← Do (Do_items client) httpRequest;
  match r with
  | DoError resp err => ret (Ok (NewGitHubAPIErrorResponse ProjectListFailedError resp err))
  | DoDone resp projectItems =>
      let projectItems :=
        (λ item, if decide (0 < length (Fields item))%nat
                 then set_Fields (filterSpecialTypes (Fields item)) item
                 else item) <$> projectItems in
      r ← wrap "failed to marshal response"
            (json_Marshal (ItemsResponse projectItems (buildPageInfo resp)));
      ret (Ok (NewToolResultText r))
  end.

(** The end the three modifying handlers share: the status is compared
    with the one expected; otherwise the body is read into the failure. *)
Definition expect_status (expected : Z) (failed : string) (resp : Response)
    (success : handler False) : handler False :=
  if decide (StatusCode resp ≠ expected) then
    body ← wrap "failed to read response body" (ReadAll_Body resp);
    ret (Ok (NewToolResultError (failed +:+ ": " +:+ body)))
  else success.

Definition AddProjectItem (req : CallToolRequest) : handler False :=
  owner ← check (RequiredParam_string req "owner");
  ownerType ← check (RequiredParam_string req "owner_type");
  projectNumber ← check (RequiredInt req "project_number");
  itemID ← check (RequiredInt req "item_id");
  itemType ← check (RequiredParam_string req "item_type");
  if decide (itemType ≠ "issue" ∧ itemType ≠ "pull_request") then
    ret (Ok (NewToolResultError "item_type must be either 'issue' or 'pull_request'"))
  else
    client ← check getClient;
    let projectsURL := items_path ownerType owner projectNumber in
    let newItem := {| new_ID := itemID; new_Type := toNewProjectType itemType |} in
    httpRequest ← wrap "failed to create request"
                    (NewRequest client "POST" projectsURL (Some (NewItemBody newItem)));
    r ← Do (Do_item client) httpRequest;
    match r with
    | DoError resp err => ret (Ok (NewGitHubAPIErrorResponse ProjectAddFailedError resp err))
    | DoDone resp addedItem =>
        expect_status StatusCreated ProjectAddFailedError resp
          (r ← wrap "failed to marshal response" (json_Marshal (ItemValue addedItem));
           ret (Ok (NewToolResultText r)))
    end.

Definition UpdateProjectItem (req : CallToolRequest) : handler False :=
  owner ← check (RequiredParam_string req "owner");
  ownerType ← check (RequiredParam_string req "owner_type");
  projectNumber ← check (RequiredInt req "project_number");
  itemID ← check (RequiredInt req "item_id");
  match GetArguments req !! "updated_field" with
  | None => ret (Ok (NewToolResultError "missing required parameter: updated_field"))
  | Some (AMap (Some fieldValue)) =>
      updatePayload ← check (buildUpdateProjectItem (Some fieldValue));
      client ← check getClient;
      let projectsURL := item_path ownerType owner projectNumber itemID in
      httpRequest ← wrap "failed to create request"
                      (NewRequest client "PATCH" projectsURL
                         (Some (UpdateBody {| upd_Fields := [updatePayload] |})));
      r ← Do (Do_item client) httpRequest;
      match r with
      | DoError resp err => ret (Ok (NewGitHubAPIErrorResponse ProjectUpdateFailedError resp err))
      | DoDone resp updatedItem =>
          expect_status StatusOK ProjectUpdateFailedError resp
            (r ← wrap "failed to marshal response" (json_Marshal (ItemValue updatedItem));
             ret (Ok (NewToolResultText r)))
      end
  | Some _ => ret (Ok (NewToolResultError "field_value must be an object"))
  end.

Definition DeleteProjectItem (req : CallToolRequest) : handler False :=
  owner ← check (RequiredParam_string req "owner");
  ownerType ← check (RequiredParam_string req "owner_type");
  projectNumber ← check (RequiredInt req "project_number");
  itemID ← check (RequiredInt req "item_id");
  client ← check getClient;
  let projectsURL := item_path ownerType owner projectNumber itemID in
  httpRequest ← wrap "failed to create request" (NewRequest client "DELETE" projectsURL None);
  r ← Do (Do_nothing client) httpRequest;
  match r with
  | DoError resp err => ret (Ok (NewGitHubAPIErrorResponse ProjectDeleteFailedError resp err))
  | DoDone resp _ =>
      expect_status StatusNoContent ProjectDeleteFailedError resp
        (ret (Ok (NewToolResultText "project item successfully deleted")))
  end.
End handlers.

(** ** An instance to run the definitions on

    ASCII lower-casing, targets of the shape [path?query], and an escape that
    leaves the unreserved characters of these examples alone. *)

Definition ascii_lower (c : ascii) : ascii :=
  let n := N_of_ascii c in
  if ((65 <=? n) && (n <=? 90))%N then ascii_of_N (n + 32) else c.

Fixpoint string_lower (s : string) : string :=
  match s with
  | EmptyString => EmptyString
  | String c s => String (ascii_lower c) (string_lower s)
  end.

Fixpoint split_query (s : string) : string * string :=
  match s with
  | EmptyString => (EmptyString, EmptyString)
  | String c s =>
      if decide (c = "?"%char) then (EmptyString, s)
      else let '(path, query) := split_query s in (String c path, query)
  end.

Definition plain_URL (path query : string) : URL :=
  {| Scheme := ""; Opaque := ""; User := None; Host := ""; Path := path; RawPath := "";
     OmitHost := false; ForceQuery := false; RawQuery := query; Fragment := "";
     RawFragment := "" |}.

Definition ascii_library : GoLibrary :=
  {| ToLower := string_lower;
     QueryEscape := id;
     url_Parse := λ s, let '(path, query) := split_query s in Ok (plain_URL path query);
     URL_String := λ u, if decide (RawQuery u = "") then Path u else Path u +:+ "?" +:+ RawQuery u;
     json_Marshal := λ v,
       match v with
       | ItemsResponse items info =>
           Ok ("items:" +:+ pretty (length items) +:+
               (if HasNextPage info then ",next:" +:+ NextCursor info else ""))
       | ItemValue _ => Ok "item"
       end |}.

(** A client that answers every request with the same response. *)
Definition fixed_client (resp : Response) (items : list projectV2Item) (item : projectV2Item) :
    Client :=
  {| NewRequest_error := λ _, None;
     Do_items := λ _, DoDone resp items;
     Do_item := λ _, DoDone resp item;
     Do_nothing := λ _, DoDone resp () |}.

Definition empty_item : projectV2Item :=
  {| ArchivedAt := None; Content := None; ContentType := None; CreatedAt := None;
     Creator := None; Description := None; Fields := []; ID := None; ItemURL := None;
     NodeID := None; ProjectURL := None; Title := None; UpdatedAt := None |}.

Definition field_value (dataType : string) : option projectV2ItemFieldValue :=
  Some {| value_ID := None; value_Name := dataType; value_DataType := dataType;
          value_Value := ANil |}.

Definition number (n : Z) : any := AFloat64 (inject_Z n).

Definition project_request (more : list (string * any)) : CallToolRequest :=
  {| GetArguments :=
       list_to_map ([("owner", AString "octo"); ("owner_type", AString "org");
                     ("project_number", number 7)] ++ more) |}.

(** ** The handlers for fields, single items and projects *)

Definition fields_path (ownerType owner : string) (projectNumber : Z) : string :=
  if decide (ownerType = "org")
  then "orgs/" +:+ owner +:+ "/projectsV2/" +:+ pretty projectNumber +:+ "/fields"
  else "users/" +:+ owner +:+ "/projectsV2/" +:+ pretty projectNumber +:+ "/fields".

Definition field_path (ownerType owner : string) (projectNumber fieldID : Z) : string :=
  fields_path ownerType owner projectNumber +:+ "/" +:+ pretty fieldID.

(** [github.ListProjectsOptions], with its embedded pagination options. *)
Record ListProjectsOptions : Type := {
  list_PerPage : Z;
  list_After : string;
  list_Before : string;
  list_Query : string;
}.

Section other_handlers.
Context `{GoLibrary}.
Variable getClient : result Client.

(** [client.Do] decoding into a list of fields and into one field, and
    [json.Marshal] of what the two field handlers return. *)
Variable Do_fields : Client → http_Request → DoResult (list (option projectV2Field)).
Variable Do_field : Client → http_Request → DoResult projectV2Field.
Variable json_Marshal_fields : list (option projectV2Field) → pageInfo → result string.
Variable json_Marshal_field : projectV2Field → result string.

(** The projects of the client library, the minimal project of the
    repository with its conversion (not in this file), the four calls of
    [client.Projects] and [json.Marshal] of what the two project handlers
    return.  These calls are made by the client library: they are not among
    the requests this file builds. *)
Variable ProjectV2 MinimalProject : Type.
Variable convertToMinimalProject : option ProjectV2 → MinimalProject.
Variable ListProjectsForOrg ListProjectsForUser :
  Client → string → ListProjectsOptions → DoResult (list (option ProjectV2)).
Variable GetProjectForOrg GetProjectForUser :
  Client → string → Z → DoResult (option ProjectV2).
Variable json_Marshal_projects : list MinimalProject → pageInfo → result string.
Variable json_Marshal_project : MinimalProject → result string.

Definition ListProjects (req : CallToolRequest) : handler False :=
  owner ← check (RequiredParam_string req "owner");
  ownerType ← check (RequiredParam_string req "owner_type");
  queryStr ← check (OptionalParam_string req "query");
  pagination ← check (extractPaginationOptions req);
  client ← check getClient;
  let opts :=
    {| list_PerPage := PerPage pagination;
       list_After := After pagination;
       list_Before := Before pagination;
       list_Query := queryStr |} in
  let r := if decide (ownerType = "org")
           then ListProjectsForOrg client owner opts
           else ListProjectsForUser client owner opts in
  match r with
  | DoError resp err => ret (Ok (NewGitHubAPIErrorResponse "failed to list projects" resp err))
  | DoDone resp projects =>
      let minimalProjects := foldl (λ acc project, acc ++ [convertToMinimalProject project])
                                   [] projects in
      r ← wrap "failed to marshal response"
            (json_Marshal_projects minimalProjects (buildPageInfo resp));
      ret (Ok (NewToolResultText r))
  end.

Definition GetProject (req : CallToolRequest) : handler False :=
  projectNumber ← check (RequiredInt req "project_number");
  owner ← check (RequiredParam_string req "owner");
  ownerType ← check (RequiredParam_string req "owner_type");
  client ← check getClient;
  let r := if decide (ownerType = "org")
           then GetProjectForOrg client owner projectNumber
           else GetProjectForUser client owner projectNumber in
  match r with
  | DoError resp err => ret (Ok (NewGitHubAPIErrorResponse "failed to get project" resp err))
  | DoDone resp project =>
      expect_status StatusOK "failed to get project" resp
        (let minimalProject := convertToMinimalProject project in
         r ← wrap "failed to marshal response" (json_Marshal_project minimalProject);
         ret (Ok (NewToolResultText r)))
  end.

Definition ListProjectFields (req : CallToolRequest) : handler False :=
  owner ← check (RequiredParam_string req "owner");
  ownerType ← check (RequiredParam_string req "owner_type");
  projectNumber ← check (RequiredInt req "project_number");
  pagination ← check (extractPaginationOptions req);
  client ← check getClient;
  let url := fields_path ownerType owner projectNumber in
  url ← wrap "failed to add options to request" (addOptions url (Options pagination));
  httpRequest ← wrap "failed to create request" (NewRequest client "GET" url None);
  r ← Do (Do_fields client) httpRequest;
  match r with
  | DoError resp err =>
      ret (Ok (NewGitHubAPIErrorResponse "failed to list project fields" resp err))
  | DoDone resp projectFields =>
      let filteredFields := filterSpecialTypes projectFields in
      r ← wrap "failed to marshal response"
            (json_Marshal_fields filteredFields (buildPageInfo resp));
      ret (Ok (NewToolResultText r))
  end.

Definition GetProjectField (req : CallToolRequest) : handler False :=
  owner ← check (RequiredParam_string req "owner");
  ownerType ← check (RequiredParam_string req "owner_type");
  projectNumber ← check (RequiredInt req "project_number");
  fieldID ← check (RequiredInt req "field_id");
  client ← check getClient;
  let url := field_path ownerType owner projectNumber fieldID in
  httpRequest ← wrap "failed to create request" (NewRequest client "GET" url None);
  r ← Do (Do_field client) httpRequest;
  match r with
  | DoError resp err =>
      ret (Ok (NewGitHubAPIErrorResponse "failed to get project field" resp err))
  | DoDone resp projectField =>
      expect_status StatusOK "failed to get project field" resp
        (r ← wrap "failed to marshal response" (json_Marshal_field projectField);
         ret (Ok (NewToolResultText r)))
  end.

Definition GetProjectItem (req : CallToolRequest) : handler False :=
  owner ← check (RequiredParam_string req "owner");
  ownerType ← check (RequiredParam_string req "owner_type");
  projectNumber ← check (RequiredInt req "project_number");
  itemID ← check (RequiredInt req "item_id");
  fields ← check (OptionalStringArrayParam req "fields");
  client ← check getClient;
  let url := item_path ownerType owner projectNumber itemID in
  let opts := if decide (0 < length fields)%nat
              then {| FieldIDs := strings_Join fields "," |}
              else {| FieldIDs := "" |} in
  url ← check (addOptions url (Options opts));
  httpRequest ← wrap "failed to create request" (NewRequest client "GET" url None);
  r ← Do (Do_item client) httpRequest;
  match r with
  | DoError resp err =>
      ret (Ok (NewGitHubAPIErrorResponse "failed to get project item" resp err))
  | DoDone resp projectItem =>
      let projectItem := if decide (0 < length (Fields projectItem))%nat
                         then set_Fields (filterSpecialTypes (Fields projectItem)) projectItem
                         else projectItem in
      r ← wrap "failed to marshal response" (json_Marshal (ItemValue projectItem));
      ret (Ok (NewToolResultText r))
  end.
End other_handlers.

(** Decoders and serialisers to run the field handlers on. *)
Definition fields_of (fields : list (option projectV2Field)) (resp : Response) :
    Client → http_Request → DoResult (list (option projectV2Field)) :=
  λ _ _, DoDone resp fields.

Definition count_fields (fields : list (option projectV2Field)) (info : pageInfo) :
    result string :=
  Ok ("fields:" +:+ pretty (length fields)).

Definition field_definition (dataType : string) : option projectV2Field :=
  Some {| field_ID := None; field_NodeID := ""; field_Name := dataType;
          field_DataType := dataType; field_URL := ""; field_Options := [];
          field_Configuration := None; field_CreatedAt := None; field_UpdatedAt := None |}.

Definition empty_field : projectV2Field :=
  {| field_ID := None; field_NodeID := ""; field_Name := ""; field_DataType := "";
     field_URL := ""; field_Options := []; field_Configuration := None;
     field_CreatedAt := None; field_UpdatedAt := None |}.

Definition field_of (field : projectV2Field) (resp : Response) :
    Client → http_Request → DoResult projectV2Field :=
  λ _ _, DoDone resp field.

Definition name_field (field : projectV2Field) : result string :=
  Ok ("field:" +:+ field_Name field).

(** A client whose every call fails. *)
Definition failing_client (resp : option Response) (err : error) : Client :=
  {| NewRequest_error := λ _, None;
     Do_items := λ _, DoError resp err;
     Do_item := λ _, DoError resp err;
     Do_nothing := λ _, DoError resp err |}.

(** The instance above with a parser that rejects every target. *)
Definition unparsable_library : GoLibrary :=
  {| ToLower := string_lower;
     QueryEscape := id;
     url_Parse := λ _, Err "invalid URL";
     URL_String := λ u, Path u;
     json_Marshal := λ _, Ok "" |}.

(** Projects that are their titles, and calls that answer with the same
    projects for every owner. *)
Definition projects_of (projects : list (option string)) (resp : Response) :
    Client → string → ListProjectsOptions → DoResult (list (option string)) :=
  λ _ _ _, DoDone resp projects.

Definition project_of (project : option string) (resp : Response) :
    Client → string → Z → DoResult (option string) :=
  λ _ _ _, DoDone resp project.

Definition project_title (project : option string) : string := default "" project.

Definition join_titles (titles : list string) (info : pageInfo) : result string :=
  Ok (strings_Join titles ";").

Definition ok_response (status : Z) (body : string) : Response :=
  {| StatusCode := status; ReadAll_Body := Ok body; resp_After := ""; resp_Before := "" |}.

(** What a modifying handler returns for a response of another status than
    the expected one: the failure text with the body, unless the body cannot
    be read. *)
Definition status_failure (failed : string) (resp : Response) : result CallToolResult :=
  match ReadAll_Body resp with
  | Ok body => Ok (NewToolResultError (failed +:+ ": " +:+ body))
  | Err e => Err ("failed to read response body: " +:+ e)
  end.

(** * Properties *)

(** ** Pagination *)

Lemma float64_to_int_ge (f : Q) (n : Z) : (inject_Z n < f)%Q → 0 ≤ n → n ≤ float64_to_int f.
Proof.
  destruct f as [num den]. unfold Qlt, float64_to_int. simpl. intros Hlt Hn.
  apply Z.quot_le_lower_bound; lia.
Qed.

(** C1. A [per_page] above 50 is clamped to 50 and never rejected, an absent
    [per_page] defaults to 50, and every extracted page size is at most 50. *)
Theorem extractPaginationOptions_per_page (request : CallToolRequest) :
  let rest perPage :=
    after ← OptionalParam_string request "after";
    before ← OptionalParam_string request "before";
    mret {| PerPage := perPage; After := after; Before := before |} in
  (∀ f : Q, GetArguments request !! "per_page" = Some (AFloat64 f) →
            (inject_Z 50 < f)%Q → fits_int (float64_to_int f) →
            extractPaginationOptions request = rest 50)
  ∧ (GetArguments request !! "per_page" = None →
     extractPaginationOptions request = rest 50)
  ∧ (∀ p, extractPaginationOptions request = Ok p → PerPage p ≤ 50).
Proof.
  cbn zeta. unfold extractPaginationOptions, OptionalIntParamWithDefault,
    OptionalIntParam, OptionalParam_float64, MaxProjectsPerPage.
  split; [|split].
  - intros f Hf Hlt _. rewrite Hf. cbn.
    pose proof (float64_to_int_ge f 50 Hlt ltac:(lia)) as Hge.
    destruct (decide (float64_to_int f = 0)) as [H0|_]; [lia|]. cbn.
    destruct (decide (float64_to_int f > 50)) as [_|Hle]; [done|].
    by replace (float64_to_int f) with 50 by lia.
  - intros Habs. rewrite Habs. cbn. done.
  - intros p.
    destruct (GetArguments request !! "per_page") as [[]|]; cbn; try done;
      repeat (case_decide; cbn);
      destruct (OptionalParam_string request "after"); cbn; try done;
      destruct (OptionalParam_string request "before"); cbn; try done;
      intros [= <-]; cbn; lia.
Qed.

Lemma extractPaginationOptions_per_page_witness :
  extractPaginationOptions (project_request [("per_page", number 200)])
  = Ok {| PerPage := 50; After := ""; Before := "" |}
  ∧ extractPaginationOptions (project_request [("after", AString "c1")])
    = Ok {| PerPage := 50; After := "c1"; Before := "" |}
  ∧ PerPage {| PerPage := 7; After := ""; Before := "" |} ≤ 50.
Proof.
  split; [|split].
  - rewrite (proj1 (extractPaginationOptions_per_page _) (inject_Z 200)).
    + reflexivity.
    + reflexivity.
    + reflexivity.
    + by compute.
  - rewrite (proj1 (proj2 (extractPaginationOptions_per_page _))); reflexivity.
  - apply (proj2 (proj2 (extractPaginationOptions_per_page
                           (project_request [("per_page", number 7)])))).
    reflexivity.
Defined.

(** ** The special-field filter *)

Lemma specialFieldDataTypes_lookup (dt : string) :
  is_Some (specialFieldDataTypes !! dt) ↔ dt ∈ special_names.
Proof.
  unfold specialFieldDataTypes, special_names.
  rewrite !lookup_insert_is_Some', lookup_singleton_is_Some.
  rewrite !elem_of_cons, elem_of_nil.
  split; intros Hdt; repeat destruct Hdt as [Hdt|Hdt]; subst; tauto.
Qed.

Section filter_properties.
Context `{DataTyped T}.
Implicit Types fields out : list T.

Lemma filterSpecialTypes_loop_filter out fields :
  filterSpecialTypes_loop out fields
  = out ++ filter (λ f, getDataType f ∉ special_names) fields.
Proof.
  revert out. induction fields as [|f fields IH]; intros out.
  - by rewrite app_nil_r.
  - rewrite filter_cons. cbn [filterSpecialTypes_loop].
    pose proof (specialFieldDataTypes_lookup (getDataType f)) as Hspecial.
    destruct (specialFieldDataTypes !! getDataType f) as [u|]; rewrite IH.
    + rewrite decide_False; [done|]. intros Hnot. apply Hnot, Hspecial. by exists u.
    + rewrite decide_True, <-app_assoc; [done|].
      intros Hin. apply Hspecial in Hin as [? ?]. done.
Qed.

Lemma filterSpecialTypes_filter fields :
  filterSpecialTypes fields = filter (λ f, getDataType f ∉ special_names) fields.
Proof.
  unfold filterSpecialTypes. case_decide as Hlen.
  - by apply nil_length_inv in Hlen as ->.
  - apply filterSpecialTypes_loop_filter.
Qed.
End filter_properties.

(** C2. On field definitions and on field values alike, the filter removes
    exactly the records whose lower-cased data type is one of the nine special
    names, keeps all others, and reads the data type through the shared
    lower-casing accessor. *)
Theorem filterSpecialTypes_removes_special `{GoLibrary} :
  (∀ fields : list (option projectV2Field),
     filterSpecialTypes fields = filter (λ f, getDataType f ∉ special_names) fields)
  ∧ (∀ values : list (option projectV2ItemFieldValue),
       filterSpecialTypes values = filter (λ v, getDataType v ∉ special_names) values)
  ∧ (∀ f : projectV2Field, getDataType (Some f) = ToLower (field_DataType f))
  ∧ (∀ v : projectV2ItemFieldValue, getDataType (Some v) = ToLower (value_DataType v))
  ∧ (∀ dt : string,
       is_Some (specialFieldDataTypes !! dt)
       ↔ dt ∈ ["assignees"; "labels"; "linked_pull_requests"; "milestone"; "parent_issue";
               "repository"; "reviewers"; "sub_issues_progress"; "title"]).
Proof.
  repeat split.
  - intros fields. apply filterSpecialTypes_filter.
  - intros values. apply filterSpecialTypes_filter.
  - apply specialFieldDataTypes_lookup.
  - apply specialFieldDataTypes_lookup.
Qed.

(** C7. The filter is idempotent, keeps the retained records in their input
    order, and maps the empty sequence to the empty sequence. *)
Theorem filterSpecialTypes_idempotent `{DataTyped T} (fields : list T) :
  filterSpecialTypes (filterSpecialTypes fields) = filterSpecialTypes fields
  ∧ filterSpecialTypes fields `sublist_of` fields
  ∧ filterSpecialTypes (@nil T) = [].
Proof.
  split; [|split].
  - rewrite !filterSpecialTypes_filter. by apply list_filter_filter_l.
  - rewrite filterSpecialTypes_filter. apply sublist_filter.
  - reflexivity.
Qed.

(** ** Page information *)

Lemma pageInfo_json_nextCursor (p : pageInfo) :
  pageInfo_json p !! "nextCursor"
  = if decide (NextCursor p = "") then None else Some (AString (NextCursor p)).
Proof.
  unfold pageInfo_json. repeat case_decide; by simplify_map_eq.
Qed.

Lemma pageInfo_json_prevCursor (p : pageInfo) :
  pageInfo_json p !! "prevCursor"
  = if decide (PrevCursor p = "") then None else Some (AString (PrevCursor p)).
Proof.
  unfold pageInfo_json. repeat case_decide; by simplify_map_eq.
Qed.

(** C3. The page info has a next page exactly when the after-token is not
    empty and a previous page exactly when the before-token is not empty, it
    carries both tokens unchanged, and its JSON object has the next-cursor key
    exactly when there is a next page, the previous-cursor key exactly when
    there is a previous page. *)
Theorem buildPageInfo_spec (resp : Response) :
  let info := buildPageInfo resp in
  (HasNextPage info = true ↔ resp_After resp ≠ "")
  ∧ (HasPreviousPage info = true ↔ resp_Before resp ≠ "")
  ∧ NextCursor info = resp_After resp
  ∧ PrevCursor info = resp_Before resp
  ∧ (is_Some (pageInfo_json info !! "nextCursor") ↔ HasNextPage info = true)
  ∧ (is_Some (pageInfo_json info !! "prevCursor") ↔ HasPreviousPage info = true)
  ∧ pageInfo_json info !! "nextCursor"
    = (if HasNextPage info then Some (AString (resp_After resp)) else None)
  ∧ pageInfo_json info !! "prevCursor"
    = (if HasPreviousPage info then Some (AString (resp_Before resp)) else None).
Proof.
  cbn zeta. rewrite pageInfo_json_nextCursor, pageInfo_json_prevCursor.
  destruct resp as [status body after before]; cbn.
  rewrite <-!not_eq_None_Some.
  repeat case_bool_decide; repeat case_decide; try congruence; repeat split; congruence.
Qed.

(** ** Reasoning about handlers *)

Lemma handler_bind_unfold {A B} (k : A → handler B) (m : handler A) (log : list http_Request) :
  (m ≫= k) log
  = match m log with
    | (log, Return r) => (log, Return r)
    | (log, Next a) => k a log
    end.
Proof. reflexivity. Qed.

Lemma check_unfold {A} (r : result A) (log : list http_Request) :
  check r log
  = match r with
    | Ok a => (log, Next a)
    | Err e => (log, Return (Ok (NewToolResultError e)))
    end.
Proof. by destruct r. Qed.

Lemma wrap_unfold {A} (msg : string) (r : result A) (log : list http_Request) :
  wrap msg r log
  = match r with
    | Ok a => (log, Next a)
    | Err e => (log, Return (Err (msg +:+ ": " +:+ e)))
    end.
Proof. by destruct r. Qed.

Lemma Do_unfold {V} (do : http_Request → DoResult V) (r : http_Request)
    (log : list http_Request) :
  Do do r log = (log ++ [r], Next (do r)).
Proof. reflexivity. Qed.

Lemma ret_unfold {A} (r : result CallToolResult) (log : list http_Request) :
  @ret A r log = (log, Return r).
Proof. reflexivity. Qed.

(** One statement of a handler: the bind is opened and the outcome of the
    call it runs is split into its cases. *)
Ltac handler_open :=
  rewrite ?handler_bind_unfold, ?check_unfold, ?wrap_unfold, ?Do_unfold, ?ret_unfold;
  cbv beta iota.

(** The outcome of a run is named, so that a statement about it is proved
    once per path through the handler. *)
Ltac handler_outcome out :=
  match goal with
  | |- context [run ?h] =>
      let Hout := fresh "Hout" in
      remember (run h) as out eqn:Hout; symmetry in Hout; revert Hout; unfold run
  end.

Ltac handler_step :=
  handler_open;
  match goal with
  | |- context [match ?r with Ok _ => _ | Err _ => _ end] =>
      is_var r || (let E := fresh "E" in destruct r eqn:E); cbv beta iota
  | |- context [match ?r with DoError _ _ => _ | DoDone _ _ => _ end] =>
      is_var r || (let E := fresh "E" in destruct r eqn:E); cbv beta iota
  | |- context [decide ?P] =>
      let E := fresh "E" in destruct (decide P) as [E|E]; cbv beta iota
  end.

(** All paths through a handler; at the end of each the outcome is known. *)
Ltac handler_paths :=
  repeat handler_step; handler_open; intros <-; cbn [issued returned app].

(** ** The update payload *)

Lemma buildUpdateProjectItem_Ok (m : gmap string any) (p : updateProjectItem) :
  buildUpdateProjectItem (Some m) = Ok p
  ↔ ∃ (f : Q) (v : any),
      m !! "id" = Some (AFloat64 f) ∧ m !! "value" = Some v
      ∧ p = {| upd_ID := float64_to_int f; upd_Value := v |}.
Proof.
  unfold buildUpdateProjectItem, map_index. split.
  - destruct (m !! "id") as [[]|]; try done.
    destruct (m !! "value") as [v|]; [|done].
    intros [= <-]. eauto.
  - by intros (f & v & -> & -> & ->).
Qed.

Section update_properties.
Context `{GoLibrary}.
Variable getClient : result Client.

(** C4. The builder succeeds with the payload [{id, value}] exactly when the
    map has a numeric "id" and a "value" (null included); otherwise it fails
    with an error naming the key; the five examples of the specification;
    and [update_project_item] returns the error without issuing a
    request. *)
Theorem buildUpdateProjectItem_validates :
  (∀ (m : gmap string any) (p : updateProjectItem),
     buildUpdateProjectItem (Some m) = Ok p
     ↔ ∃ (f : Q) (v : any),
         m !! "id" = Some (AFloat64 f) ∧ m !! "value" = Some v
         ∧ p = {| upd_ID := float64_to_int f; upd_Value := v |})
  ∧ (∀ m : gmap string any, m !! "id" = None →
       buildUpdateProjectItem (Some m) = Err "updated_field.id is required")
  ∧ (∀ (m : gmap string any) (x : any), m !! "id" = Some x → (∀ f, x ≠ AFloat64 f) →
       buildUpdateProjectItem (Some m) = Err "updated_field.id must be a number")
  ∧ (∀ (m : gmap string any) (f : Q), m !! "id" = Some (AFloat64 f) → m !! "value" = None →
       buildUpdateProjectItem (Some m) = Err "updated_field.value is required")
  ∧ buildUpdateProjectItem None = Err "updated_field must be an object"
  ∧ buildUpdateProjectItem (Some {[ "id" := number 123; "value" := AString "x" ]})
    = Ok {| upd_ID := 123; upd_Value := AString "x" |}
  ∧ buildUpdateProjectItem (Some {[ "id" := number 123 ]})
    = Err "updated_field.value is required"
  ∧ buildUpdateProjectItem (Some {[ "value" := AString "x" ]})
    = Err "updated_field.id is required"
  ∧ buildUpdateProjectItem (Some {[ "id" := AString "abc"; "value" := number 1 ]})
    = Err "updated_field.id must be a number"
  ∧ buildUpdateProjectItem (Some {[ "id" := number 1; "value" := ANil ]})
    = Ok {| upd_ID := 1; upd_Value := ANil |}
  ∧ (∀ (req : CallToolRequest) (m : gmap string any) (e : error),
       GetArguments req !! "updated_field" = Some (AMap (Some m)) →
       buildUpdateProjectItem (Some m) = Err e →
       issued (run (UpdateProjectItem getClient req)) = []
       ∧ ∃ e' : error,
           returned (run (UpdateProjectItem getClient req)) = Ok (NewToolResultError e')
           ∧ (∀ owner ownerType projectNumber itemID,
                RequiredParam_string req "owner" = Ok owner →
                RequiredParam_string req "owner_type" = Ok ownerType →
                RequiredInt req "project_number" = Ok projectNumber →
                RequiredInt req "item_id" = Ok itemID →
                e' = e)).
Proof.
  split; [apply buildUpdateProjectItem_Ok|].
  split; [by intros m Hid; unfold buildUpdateProjectItem; cbn; rewrite Hid|].
  split.
  { intros m x Hid Hx. unfold buildUpdateProjectItem. cbn. rewrite Hid.
    destruct x; try done. by destruct (Hx f). }
  split.
  { intros m f Hid Hvalue. unfold buildUpdateProjectItem. cbn. by rewrite Hid, Hvalue. }
  do 6 (split; [reflexivity|]).
  intros req m e Hfield He. unfold run, UpdateProjectItem.
  repeat handler_step; try (cbn; split; [done|]; eexists; split; [done|]; congruence).
  rewrite Hfield. cbv beta iota. handler_open. rewrite He.
  split; [done|]. eexists. split; [done|]. done.
Qed.
End update_properties.

Lemma buildUpdateProjectItem_validates_witness :
  let req := project_request [("item_id", number 200);
                              ("updated_field", AMap (Some {[ "id" := number 123 ]}))] in
  let out := run (UpdateProjectItem (H:=ascii_library)
                    (Ok (fixed_client
                           {| StatusCode := 200; ReadAll_Body := Ok ""; resp_After := "";
                              resp_Before := "" |} [] empty_item)) req) in
  buildUpdateProjectItem (Some {[ "id" := number 123 ]}) = Err "updated_field.value is required"
  ∧ issued out = []
  ∧ returned out = Ok (NewToolResultError "updated_field.value is required").
Proof.
  intros req out.
  pose proof (buildUpdateProjectItem_validates (H:=ascii_library)
                (Ok (fixed_client
                       {| StatusCode := 200; ReadAll_Body := Ok ""; resp_After := "";
                          resp_Before := "" |} [] empty_item))) as Hspec.
  destruct Hspec as (_ & _ & _ & Hvalue & _ & _ & _ & _ & _ & _ & Hhandler).
  assert (buildUpdateProjectItem (Some {[ "id" := number 123 ]})
          = Err "updated_field.value is required") as Herr.
  { apply (Hvalue _ (inject_Z 123)); reflexivity. }
  destruct (Hhandler req _ _ eq_refl Herr) as (Hissued & e' & Hreturned & He').
  split; [exact Herr|]. split; [exact Hissued|].
  rewrite <-(He' "octo" "org" 7 200 eq_refl eq_refl eq_refl eq_refl).
  exact Hreturned.
Defined.

(** ** Status checks *)

(** Two facts about the same call are merged. *)
Ltac same_call :=
  simplify_eq;
  repeat match goal with
         | H1 : ?x = ?y, H2 : ?x = ?z |- _ =>
             tryif constr_eq y z then fail else rewrite H1 in H2
         end;
  simplify_eq;
  repeat match goal with
         | H : ¬ (_ ≠ _) |- _ => apply dec_stable in H
         | H : ?x = _ |- context [match ?x with _ => _ end] => rewrite H
         end.

Section status_properties.
Context `{GoLibrary}.
Variable getClient : result Client.

Lemma AddProjectItem_status (req : CallToolRequest) :
  let out := run (AddProjectItem getClient req) in
  (∀ client r resp item,
     getClient = Ok client → issued out = [r] → Do_item client r = DoDone resp item →
     StatusCode resp ≠ StatusCreated →
     returned out = status_failure ProjectAddFailedError resp)
  ∧ (∀ text, returned out = Ok (NewToolResultText text) →
     ∃ client r resp item,
       getClient = Ok client ∧ issued out = [r] ∧ Do_item client r = DoDone resp item
       ∧ StatusCode resp = StatusCreated).
Proof.
  cbn zeta. handler_outcome out. unfold AddProjectItem, expect_status.
  handler_paths;
    (split; [intros client' r' resp' item' ? ? ? ?|intros text' ?]);
    unfold status_failure; same_call; try done.
  by eexists _, _, _, _.
Qed.

Lemma UpdateProjectItem_status (req : CallToolRequest) :
  let out := run (UpdateProjectItem getClient req) in
  (∀ client r resp item,
     getClient = Ok client → issued out = [r] → Do_item client r = DoDone resp item →
     StatusCode resp ≠ StatusOK →
     returned out = status_failure ProjectUpdateFailedError resp)
  ∧ (∀ text, returned out = Ok (NewToolResultText text) →
     ∃ client r resp item,
       getClient = Ok client ∧ issued out = [r] ∧ Do_item client r = DoDone resp item
       ∧ StatusCode resp = StatusOK).
Proof.
  cbn zeta. handler_outcome out. unfold UpdateProjectItem, expect_status.
  repeat handler_step.
  all: try (destruct (GetArguments req !! "updated_field") as [[| | | | |[fieldValue|]]|]).
  all: handler_paths;
    (split; [intros client' r' resp' item' ? ? ? ?|intros text' ?]);
    unfold status_failure; same_call; try done.
  by eexists _, _, _, _.
Qed.

Lemma DeleteProjectItem_status (req : CallToolRequest) :
  let out := run (DeleteProjectItem getClient req) in
  (∀ client r resp,
     getClient = Ok client → issued out = [r] → Do_nothing client r = DoDone resp () →
     StatusCode resp ≠ StatusNoContent →
     returned out = status_failure ProjectDeleteFailedError resp)
  ∧ (∀ text, returned out = Ok (NewToolResultText text) →
     ∃ client r resp,
       getClient = Ok client ∧ issued out = [r] ∧ Do_nothing client r = DoDone resp ()
       ∧ StatusCode resp = StatusNoContent).
Proof.
  cbn zeta. handler_outcome out. unfold DeleteProjectItem, expect_status.
  handler_paths;
    (split; [intros client' r' resp' ? ? ? ?|intros text' ?]);
    unfold status_failure; same_call; try done.
  destruct v. by eexists _, _, _.
Qed.

Lemma ListProjectItems_status (req : CallToolRequest) :
  let out := run (ListProjectItems getClient req) in
  (∀ client r resp err,
     getClient = Ok client → issued out = [r] → Do_items client r = DoError resp err →
     returned out = Ok (NewGitHubAPIErrorResponse ProjectListFailedError resp err))
  ∧ (∀ client r resp items,
       getClient = Ok client → issued out = [r] → Do_items client r = DoDone resp items →
       returned out
       = match json_Marshal
                 (ItemsResponse
                    ((λ item, if decide (0 < length (Fields item))%nat
                              then set_Fields (filterSpecialTypes (Fields item)) item
                              else item) <$> items)
                    (buildPageInfo resp)) with
         | Ok text => Ok (NewToolResultText text)
         | Err e => Err ("failed to marshal response: " +:+ e)
         end).
Proof.
  cbn zeta. handler_outcome out. unfold ListProjectItems.
  handler_paths;
    (split; [intros client' r' resp' err' ? ? ?|intros client' r' resp' items' ? ? ?]);
    same_call; try done.
Qed.

(** C5 (amended). For add (201), update (200) and delete (204), a response
    of another status is a failure even though the transport raised no
    error, with the body in the failure text (or, when the body cannot be
    read, the read error), and a success result comes only with the expected
    status.  The items list does not compare the status: it fails when the
    transport reports an error, and otherwise serialises the items whatever
    the status. *)
Theorem status_checked_by_modifying_handlers (req : CallToolRequest) :
  let added := run (AddProjectItem getClient req) in
  let updated := run (UpdateProjectItem getClient req) in
  let deleted := run (DeleteProjectItem getClient req) in
  let listed := run (ListProjectItems getClient req) in
  ((∀ client r resp item,
      getClient = Ok client → issued added = [r] → Do_item client r = DoDone resp item →
      StatusCode resp ≠ StatusCreated →
      returned added = status_failure ProjectAddFailedError resp)
   ∧ (∀ text, returned added = Ok (NewToolResultText text) →
      ∃ client r resp item,
        getClient = Ok client ∧ issued added = [r] ∧ Do_item client r = DoDone resp item
        ∧ StatusCode resp = StatusCreated))
  ∧ ((∀ client r resp item,
        getClient = Ok client → issued updated = [r] → Do_item client r = DoDone resp item →
        StatusCode resp ≠ StatusOK →
        returned updated = status_failure ProjectUpdateFailedError resp)
     ∧ (∀ text, returned updated = Ok (NewToolResultText text) →
        ∃ client r resp item,
          getClient = Ok client ∧ issued updated = [r]
          ∧ Do_item client r = DoDone resp item ∧ StatusCode resp = StatusOK))
  ∧ ((∀ client r resp,
        getClient = Ok client → issued deleted = [r] →
        Do_nothing client r = DoDone resp () →
        StatusCode resp ≠ StatusNoContent →
        returned deleted = status_failure ProjectDeleteFailedError resp)
     ∧ (∀ text, returned deleted = Ok (NewToolResultText text) →
        ∃ client r resp,
          getClient = Ok client ∧ issued deleted = [r]
          ∧ Do_nothing client r = DoDone resp () ∧ StatusCode resp = StatusNoContent))
  ∧ ((∀ client r resp err,
        getClient = Ok client → issued listed = [r] →
        Do_items client r = DoError resp err →
        returned listed = Ok (NewGitHubAPIErrorResponse ProjectListFailedError resp err))
     ∧ (∀ client r resp items,
          getClient = Ok client → issued listed = [r] →
          Do_items client r = DoDone resp items →
          returned listed
          = match json_Marshal
                    (ItemsResponse
                       ((λ item, if decide (0 < length (Fields item))%nat
                                 then set_Fields (filterSpecialTypes (Fields item)) item
                                 else item) <$> items)
                       (buildPageInfo resp)) with
            | Ok text => Ok (NewToolResultText text)
            | Err e => Err ("failed to marshal response: " +:+ e)
            end)).
Proof.
  cbn zeta. split; [apply AddProjectItem_status|].
  split; [apply UpdateProjectItem_status|].
  split; [apply DeleteProjectItem_status|apply ListProjectItems_status].
Qed.
End status_properties.

Lemma ListProjectItems_status_unchecked :
  ¬ (∀ (L : GoLibrary) (getClient : result Client) (req : CallToolRequest)
       (client : Client) (r : http_Request) (resp : Response) (items : list projectV2Item),
       getClient = Ok client →
       issued (run (ListProjectItems getClient req)) = [r] →
       Do_items client r = DoDone resp items →
       StatusCode resp ≠ StatusOK →
       ∀ text, returned (run (ListProjectItems getClient req)) ≠ Ok (NewToolResultText text)).
Proof.
  intros Hclaim.
  pose (resp := {| StatusCode := 204; ReadAll_Body := Ok ""; resp_After := "";
                   resp_Before := "" |}).
  pose (client := fixed_client resp [] empty_item).
  apply (Hclaim ascii_library (Ok client) (project_request []) client
           {| Method := "GET"; Target := "orgs/octo/projectsV2/7/items?per_page=50";
              Body := None |}
           resp [] eq_refl) with "items:0"; by vm_compute.
Qed.

Lemma status_checked_by_modifying_handlers_witness :
  let resp := {| StatusCode := 204; ReadAll_Body := Ok "boom"; resp_After := "";
                 resp_Before := "" |} in
  let client := fixed_client resp [] empty_item in
  let req := project_request [("item_id", number 200); ("item_type", AString "issue")] in
  returned (run (AddProjectItem (H:=ascii_library) (Ok client) req))
  = Ok (NewToolResultError "failed to add a project item: boom")
  ∧ returned (run (ListProjectItems (H:=ascii_library) (Ok client) req))
    = Ok (NewToolResultText "items:0").
Proof.
  intros resp client req.
  pose proof (status_checked_by_modifying_handlers (H:=ascii_library) (Ok client) req)
    as ((Hadd & _) & _ & _ & (_ & Hlist)).
  split.
  - apply (Hadd client
             {| Method := "POST"; Target := "orgs/octo/projectsV2/7/items";
                Body := Some (NewItemBody {| new_ID := 200; new_Type := "Issue" |}) |}
             resp empty_item); by vm_compute.
  - apply (Hlist client
             {| Method := "GET"; Target := "orgs/octo/projectsV2/7/items?per_page=50";
                Body := None |}
             resp []); by vm_compute.
Defined.

(** ** Request bodies *)

Lemma NewRequest_Ok (client : Client) (method urlStr : string) (body : option request_body)
    (r : http_Request) :
  NewRequest client method urlStr body = Ok r
  ↔ r = {| Method := method; Target := urlStr; Body := body |}
    ∧ NewRequest_error client r = None.
Proof.
  unfold NewRequest. split.
  - destruct (NewRequest_error client _) eqn:E; [done|]. by intros [= <-].
  - intros [-> ->]. done.
Qed.

Section body_properties.
Context `{GoLibrary}.
Variable getClient : result Client.

(** C8. Every request that [update_project_item] issues carries as its body
    the fields list whose only element is the validated payload, and for a
    validated payload that request is issued; the body is serialised as
    [{"fields":[{"id": id, "value": value}]}]. *)
Theorem UpdateProjectItem_singleton_body (req : CallToolRequest) :
  (∀ r : http_Request, r ∈ issued (run (UpdateProjectItem getClient req)) →
     ∃ (m : gmap string any) (p : updateProjectItem),
       GetArguments req !! "updated_field" = Some (AMap (Some m))
       ∧ buildUpdateProjectItem (Some m) = Ok p
       ∧ Method r = "PATCH"
       ∧ Body r = Some (UpdateBody {| upd_Fields := [p] |}))
  ∧ (∀ owner ownerType projectNumber itemID m p client,
       RequiredParam_string req "owner" = Ok owner →
       RequiredParam_string req "owner_type" = Ok ownerType →
       RequiredInt req "project_number" = Ok projectNumber →
       RequiredInt req "item_id" = Ok itemID →
       GetArguments req !! "updated_field" = Some (AMap (Some m)) →
       buildUpdateProjectItem (Some m) = Ok p →
       getClient = Ok client →
       let r := {| Method := "PATCH";
                   Target := item_path ownerType owner projectNumber itemID;
                   Body := Some (UpdateBody {| upd_Fields := [p] |}) |} in
       NewRequest_error client r = None →
       issued (run (UpdateProjectItem getClient req)) = [r])
  ∧ (∀ p : updateProjectItem,
       updateProjectItemPayload_json {| upd_Fields := [p] |}
       = {[ "fields" :=
              ASlice [AMap (Some {[ "id" := AFloat64 (inject_Z (upd_ID p));
                                    "value" := upd_Value p ]})] ]}).
Proof.
  split; [|split].
  - handler_outcome out. unfold UpdateProjectItem, expect_status.
    repeat handler_step.
    all: try (destruct (GetArguments req !! "updated_field") as [[| | | | |[fieldValue|]]|]).
    all: handler_paths; intros r Hr;
      try (by apply elem_of_nil in Hr);
      apply list_elem_of_singleton in Hr as ->;
      match goal with
      | E : NewRequest _ _ _ _ = Ok _ |- _ => apply NewRequest_Ok in E as [-> _]
      end; by eexists _, _.
  - intros owner ownerType projectNumber itemID m p client Howner Htype Hnumber Hitem
      Hfield Hp Hclient r Hr.
    assert (NewRequest client "PATCH" (item_path ownerType owner projectNumber itemID)
              (Some (UpdateBody {| upd_Fields := [p] |})) = Ok r) as Hnew
      by by apply NewRequest_Ok.
    unfold run, UpdateProjectItem. handler_open.
    rewrite Howner. handler_open. rewrite Htype. handler_open.
    rewrite Hnumber. handler_open. rewrite Hitem. cbv beta iota.
    rewrite Hfield. handler_open. rewrite Hp. handler_open.
    rewrite Hclient. handler_open. rewrite Hnew. handler_open.
    destruct (Do_item client r) as [resp err|resp item]; [by handler_open|].
    unfold expect_status. by repeat handler_step; handler_open.
  - done.
Qed.

(** C9. With [item_type] "issue" the request body has type "Issue", with
    "pull_request" it has type "PullRequest", and that request is issued;
    any other [item_type] is rejected with a parameter error and no request
    is issued. *)
Theorem AddProjectItem_item_type (req : CallToolRequest) :
  ToLower "issue" = "issue" →
  ToLower "pull_request" = "pull_request" →
  (∀ r : http_Request, r ∈ issued (run (AddProjectItem getClient req)) →
     ∃ itemID : Z,
       Method r = "POST"
       ∧ ((RequiredParam_string req "item_type" = Ok "issue"
           ∧ Body r = Some (NewItemBody {| new_ID := itemID; new_Type := "Issue" |}))
          ∨ (RequiredParam_string req "item_type" = Ok "pull_request"
             ∧ Body r = Some (NewItemBody {| new_ID := itemID;
                                             new_Type := "PullRequest" |}))))
  ∧ (∀ owner ownerType projectNumber itemID itemType type client,
       RequiredParam_string req "owner" = Ok owner →
       RequiredParam_string req "owner_type" = Ok ownerType →
       RequiredInt req "project_number" = Ok projectNumber →
       RequiredInt req "item_id" = Ok itemID →
       RequiredParam_string req "item_type" = Ok itemType →
       (itemType = "issue" ∧ type = "Issue"
        ∨ itemType = "pull_request" ∧ type = "PullRequest") →
       getClient = Ok client →
       let r := {| Method := "POST";
                   Target := items_path ownerType owner projectNumber;
                   Body := Some (NewItemBody {| new_ID := itemID; new_Type := type |}) |} in
       NewRequest_error client r = None →
       issued (run (AddProjectItem getClient req)) = [r])
  ∧ (RequiredParam_string req "item_type" ≠ Ok "issue" →
     RequiredParam_string req "item_type" ≠ Ok "pull_request" →
     issued (run (AddProjectItem getClient req)) = []
     ∧ ∃ e : error, returned (run (AddProjectItem getClient req)) = Ok (NewToolResultError e))
  ∧ (∀ itemID : Z,
       newProjectItem_json {| new_ID := itemID; new_Type := "Issue" |} !! "type"
       = Some (AString "Issue")
       ∧ newProjectItem_json {| new_ID := itemID; new_Type := "PullRequest" |} !! "type"
         = Some (AString "PullRequest")).
Proof.
  intros Hissue Hpr.
  assert (toNewProjectType "issue" = "Issue") as Htype_issue
    by (unfold toNewProjectType; by rewrite Hissue).
  assert (toNewProjectType "pull_request" = "PullRequest") as Htype_pr
    by (unfold toNewProjectType; by rewrite Hpr).
  split; [|split; [|split]].
  - handler_outcome out. unfold AddProjectItem, expect_status.
    handler_paths; intros r Hr;
      try (by apply elem_of_nil in Hr);
      apply list_elem_of_singleton in Hr as ->;
      match goal with
      | E : NewRequest _ _ _ _ = Ok _ |- _ => apply NewRequest_Ok in E as [-> _]
      end;
      match goal with
      | E : ¬ (?t ≠ "issue" ∧ ?t ≠ "pull_request") |- _ =>
          destruct (decide (t = "issue")) as [->|];
          [|destruct (decide (t = "pull_request")) as [->|]; [|by destruct E]]
      end;
      eexists; (split; [done|]); cbn; rewrite ?Htype_issue, ?Htype_pr;
      first [by left | by right].
  - intros owner ownerType projectNumber itemID itemType type client Howner Htype Hnumber
      Hitem Hitemtype Hvalid Hclient r Hr.
    assert (toNewProjectType itemType = type) as Htype'
      by (by destruct Hvalid as [[-> ->]|[-> ->]]).
    assert (NewRequest client "POST" (items_path ownerType owner projectNumber)
              (Some (NewItemBody {| new_ID := itemID;
                                    new_Type := toNewProjectType itemType |})) = Ok r)
      as Hnew by (rewrite Htype'; by apply NewRequest_Ok).
    unfold run, AddProjectItem. handler_open.
    rewrite Howner. handler_open. rewrite Htype. handler_open.
    rewrite Hnumber. handler_open. rewrite Hitem. handler_open.
    rewrite Hitemtype. cbv beta iota.
    rewrite decide_False by (destruct Hvalid as [[-> _]|[-> _]]; by intros [? ?]).
    handler_open. rewrite Hclient. handler_open. rewrite Hnew. handler_open.
    destruct (Do_item client r) as [resp err|resp item]; [by handler_open|].
    unfold expect_status. by repeat handler_step; handler_open.
  - intros Hnot_issue Hnot_pr. handler_outcome out. unfold AddProjectItem.
    repeat handler_step; try (handler_open; intros <-; by eauto).
    all: match goal with
         | E : RequiredParam_string _ "item_type" = Ok ?t,
           E' : ¬ (?t ≠ "issue" ∧ ?t ≠ "pull_request") |- _ =>
             destruct E'; split; congruence
         end.
  - intros itemID. unfold newProjectItem_json. cbn [new_ID new_Type].
    split; case_decide; by simplify_map_eq.
Qed.
End body_properties.

Lemma UpdateProjectItem_singleton_body_witness :
  let resp := {| StatusCode := 200; ReadAll_Body := Ok ""; resp_After := "";
                 resp_Before := "" |} in
  let client := fixed_client resp [] empty_item in
  let req := project_request
               [("item_id", number 200);
                ("updated_field", AMap (Some {[ "id" := number 123; "value" := AString "x" ]}))] in
  issued (run (UpdateProjectItem (H:=ascii_library) (Ok client) req))
  = [{| Method := "PATCH"; Target := "orgs/octo/projectsV2/7/items/200";
        Body := Some (UpdateBody
                        {| upd_Fields := [{| upd_ID := 123; upd_Value := AString "x" |}] |}) |}].
Proof.
  intros resp client req.
  apply (proj1 (proj2 (UpdateProjectItem_singleton_body (H:=ascii_library) (Ok client) req))
           "octo" "org" 7 200 {[ "id" := number 123; "value" := AString "x" ]}
           {| upd_ID := 123; upd_Value := AString "x" |} client);
    by vm_compute.
Defined.

Lemma AddProjectItem_item_type_witness :
  let resp := {| StatusCode := 201; ReadAll_Body := Ok ""; resp_After := "";
                 resp_Before := "" |} in
  let client := fixed_client resp [] empty_item in
  issued (run (AddProjectItem (H:=ascii_library) (Ok client)
                 (project_request [("item_id", number 200);
                                   ("item_type", AString "pull_request")])))
  = [{| Method := "POST"; Target := "orgs/octo/projectsV2/7/items";
        Body := Some (NewItemBody {| new_ID := 200; new_Type := "PullRequest" |}) |}]
  ∧ issued (run (AddProjectItem (H:=ascii_library) (Ok client)
                   (project_request [("item_id", number 200);
                                     ("item_type", AString "Issue")]))) = [].
Proof.
  intros resp client. split.
  - apply (proj1 (proj2 (AddProjectItem_item_type (H:=ascii_library) (Ok client) _
                           eq_refl eq_refl))
             "octo" "org" 7 200 "pull_request" "PullRequest" client);
      try (by vm_compute).
    right. by split.
  - apply (proj2 (proj2 (AddProjectItem_item_type (H:=ascii_library) (Ok client) _
                           eq_refl eq_refl))); by vm_compute.
Defined.

(** ** The option encoder *)

Lemma Encode_pairs_keys (v : gmap string (list string)) (k : string) :
  k ∈ (Encode_pairs v).*1 ↔ ∃ vs, v !! k = Some vs ∧ vs ≠ [].
Proof.
  unfold Encode_pairs. rewrite list_elem_of_fmap. split.
  - intros ([k' x] & -> & Hin). cbn.
    apply list_elem_of_bind in Hin as (key & Hin & _).
    apply list_elem_of_bind in Hin as (value & Hin & Hvalue).
    apply list_elem_of_singleton in Hin as [= -> ->].
    destruct (v !! key) as [vs|]; cbn in Hvalue; [|by apply elem_of_nil in Hvalue].
    exists vs. split; [done|]. by intros ->; apply elem_of_nil in Hvalue.
  - intros (vs & Hk & Hvs). destruct vs as [|x vs]; [done|].
    exists (k, x). split; [done|].
    apply list_elem_of_bind. exists k. split.
    + apply list_elem_of_bind. exists x. rewrite Hk. cbn.
      split; [apply list_elem_of_singleton; done|left].
    + rewrite merge_sort_Permutation. apply elem_of_elements, elem_of_dom. by exists (x :: vs).
Qed.

Lemma query_Values_listProjectItemsOptions (o : listProjectItemsOptions) (k : string) :
  query_Values o !! k
  = if decide (k = "fields") then
      if decide (FieldIDs (opts_selection o) = "") then None
      else Some [FieldIDs (opts_selection o)]
    else if decide (k = "q") then
      if decide (Query (opts_filter o) = "") then None else Some [Query (opts_filter o)]
    else if decide (k = "before") then
      if decide (Before (opts_pagination o) = "") then None
      else Some [Before (opts_pagination o)]
    else if decide (k = "after") then
      if decide (After (opts_pagination o) = "") then None
      else Some [After (opts_pagination o)]
    else if decide (k = "per_page") then
      if decide (PerPage (opts_pagination o) = 0) then None
      else Some [pretty (PerPage (opts_pagination o))]
    else None.
Proof.
  destruct o as [[perPage after before] [q] [fields]].
  unfold query_Values, reflectValue, Values_Add. cbn.
  repeat case_bool_decide; cbn; repeat case_decide; by simplify_map_eq.
Qed.

Lemma query_Values_fieldSelectionOptions (o : fieldSelectionOptions) (k : string) :
  query_Values o !! k
  = if decide (k = "fields") then if decide (FieldIDs o = "") then None else Some [FieldIDs o]
    else None.
Proof.
  destruct o as [fields]. unfold query_Values, reflectValue, Values_Add. cbn.
  repeat case_bool_decide; cbn; repeat case_decide; by simplify_map_eq.
Qed.

Section encoder_properties.
Context `{GoLibrary}.

(** C6. The query of the encoded target has the key [per_page] exactly when
    the page size is not zero, [after], [before], [q] and [fields] exactly
    when their strings are not empty, and no other key; with every option at
    its default the query is empty. *)
Theorem default_options_omitted (s : string) (o : listProjectItemsOptions)
    (selection : fieldSelectionOptions) :
  addOptions s (Options o)
  = (u ← url_Parse s; mret (URL_String (set_RawQuery (Values_Encode (query_Values o)) u)))
  ∧ Values_Encode (query_Values o)
    = strings_Join ((λ kv, QueryEscape kv.1 +:+ "=" +:+ QueryEscape kv.2)
                      <$> Encode_pairs (query_Values o)) "&"
  ∧ ("per_page" ∈ (Encode_pairs (query_Values o)).*1 ↔ PerPage (opts_pagination o) ≠ 0)
  ∧ ("after" ∈ (Encode_pairs (query_Values o)).*1 ↔ After (opts_pagination o) ≠ "")
  ∧ ("before" ∈ (Encode_pairs (query_Values o)).*1 ↔ Before (opts_pagination o) ≠ "")
  ∧ ("q" ∈ (Encode_pairs (query_Values o)).*1 ↔ Query (opts_filter o) ≠ "")
  ∧ ("fields" ∈ (Encode_pairs (query_Values o)).*1 ↔ FieldIDs (opts_selection o) ≠ "")
  ∧ (∀ k, k ∈ (Encode_pairs (query_Values o)).*1 →
          k ∈ ["per_page"; "after"; "before"; "q"; "fields"])
  ∧ ("fields" ∈ (Encode_pairs (query_Values selection)).*1 ↔ FieldIDs selection ≠ "")
  ∧ Values_Encode
      (query_Values
         {| opts_pagination := {| PerPage := 0; After := ""; Before := "" |};
            opts_filter := {| Query := "" |};
            opts_selection := {| FieldIDs := "" |} |}) = ""
  ∧ Values_Encode (query_Values {| FieldIDs := strings_Join [] "," |}) = "".
Proof.
  split; [done|]. split; [done|].
  assert (∀ k, k ∈ (Encode_pairs (query_Values o)).*1
               ↔ ∃ vs, query_Values o !! k = Some vs ∧ vs ≠ []) as Hkey
    by (intros k; apply Encode_pairs_keys).
  do 5 (split; [rewrite Hkey, query_Values_listProjectItemsOptions;
                repeat case_decide; try done;
                (split; [intros (vs & ? & ?)|intros ?]); try done; by eexists|]).
  split; [|split; [|split; reflexivity]].
  - intros k. rewrite Hkey. intros (vs & Hk & Hvs). revert Hk.
    rewrite query_Values_listProjectItemsOptions. rewrite !elem_of_cons.
    repeat case_decide; subst; try done; tauto.
  - rewrite Encode_pairs_keys, query_Values_fieldSelectionOptions.
    repeat case_decide; try done;
      (split; [intros (vs & ? & ?)|intros ?]); try done; by eexists.
Qed.

Lemma per_page_key_present (o : listProjectItemsOptions) :
  PerPage (opts_pagination o) ≠ 0 → "per_page" ∈ (Encode_pairs (query_Values o)).*1.
Proof.
  intros Hne. rewrite Encode_pairs_keys, query_Values_listProjectItemsOptions.
  repeat case_decide; try done. by eexists.
Qed.

Lemma set_RawQuery_twice (q q' : string) (u : URL) :
  set_RawQuery q (set_RawQuery q' u) = set_RawQuery q u.
Proof. reflexivity. Qed.

(** C10. For a base path that parses, the encoder serialises the parsed
    target with its query replaced by the encoding of the options: the query
    the base path had plays no part, the path and the other parts are those
    of the base path; a nil options pointer gives the base path back
    unchanged. *)
Theorem addOptions_replaces_query `{UrlTagged T} (s : string) (o : T) :
  addOptions s (@NilPointer T) = Ok s
  ∧ (∀ u : URL, url_Parse s = Ok u →
       let target := set_RawQuery (Values_Encode (query_Values o)) u in
       addOptions s (Options o) = Ok (URL_String target)
       ∧ RawQuery target = Values_Encode (query_Values o)
       ∧ Path target = Path u ∧ RawPath target = RawPath u
       ∧ Scheme target = Scheme u ∧ Opaque target = Opaque u ∧ User target = User u
       ∧ Host target = Host u ∧ OmitHost target = OmitHost u
       ∧ ForceQuery target = ForceQuery u
       ∧ Fragment target = Fragment u ∧ RawFragment target = RawFragment u)
  ∧ (∀ (s' : string) (u u' : URL),
       url_Parse s = Ok u → url_Parse s' = Ok u' →
       set_RawQuery "" u = set_RawQuery "" u' →
       addOptions s (Options o) = addOptions s' (Options o)).
Proof.
  split; [done|]. split.
  - intros u Hu. cbn zeta. unfold addOptions. rewrite Hu. by destruct u.
  - intros s' u u' Hu Hu' Hsame. unfold addOptions. rewrite Hu, Hu'. cbn.
    by rewrite <-(set_RawQuery_twice _ "" u), Hsame, set_RawQuery_twice.
Qed.
End encoder_properties.

Lemma default_options_omitted_witness :
  let o := {| opts_pagination := {| PerPage := 50; After := ""; Before := "" |};
              opts_filter := {| Query := "" |};
              opts_selection := {| FieldIDs := "" |} |} in
  "per_page" ∈ (Encode_pairs (query_Values o)).*1
  ∧ "per_page" ∈ ["per_page"; "after"; "before"; "q"; "fields"].
Proof.
  intros o.
  assert ("per_page" ∈ (Encode_pairs (query_Values o)).*1) as Hin
    by (by apply per_page_key_present).
  split; [exact Hin|].
  pose proof (default_options_omitted (H:=ascii_library) "orgs/x/items" o {| FieldIDs := "" |})
    as (_ & _ & _ & _ & _ & _ & _ & Hkeys & _).
  exact (Hkeys "per_page" Hin).
Defined.

Lemma addOptions_replaces_query_witness :
  url_Parse (GoLibrary:=ascii_library) "orgs/x/items?old=1"
  = Ok (plain_URL "orgs/x/items" "old=1")
  ∧ addOptions (H:=ascii_library) "orgs/x/items?old=1"
      (Options {| PerPage := 50; After := "c1"; Before := "" |})
    = Ok "orgs/x/items?after=c1&per_page=50"
  ∧ addOptions (H:=ascii_library) "orgs/x/items?old=1" (Options {| FieldIDs := "" |})
    = addOptions (H:=ascii_library) "orgs/x/items" (Options {| FieldIDs := "" |}).
Proof.
  split; [reflexivity|]. split.
  - etrans.
    + apply (proj1 (proj1 (proj2 (addOptions_replaces_query (H:=ascii_library)
                                    "orgs/x/items?old=1"
                                    {| PerPage := 50; After := "c1"; Before := "" |}))
                      (plain_URL "orgs/x/items" "old=1") eq_refl)).
    + by vm_compute.
  - apply (proj2 (proj2 (addOptions_replaces_query (H:=ascii_library) "orgs/x/items?old=1"
                           {| FieldIDs := "" |}))
             "orgs/x/items" (plain_URL "orgs/x/items" "old=1") (plain_URL "orgs/x/items" ""));
      reflexivity.
Defined.

(** ** The end-to-end examples of the specification *)

Section examples.
#[local] Existing Instance ascii_library.

Example list_items_page_size_200 :
  run (ListProjectItems
         (Ok (fixed_client {| StatusCode := 200; ReadAll_Body := Ok ""; resp_After := "";
                              resp_Before := "" |} [] empty_item))
         (project_request [("per_page", number 200)]))
  = {| issued := [{| Method := "GET"; Target := "orgs/octo/projectsV2/7/items?per_page=50";
                     Body := None |}];
       returned := Ok (NewToolResultText "items:0") |}.
Proof. by vm_compute. Qed.

Example no_next_cursor_without_after_token :
  let info := buildPageInfo {| StatusCode := 200; ReadAll_Body := Ok ""; resp_After := "";
                               resp_Before := "" |} in
  HasNextPage info = false ∧ pageInfo_json info !! "nextCursor" = None.
Proof. by vm_compute. Qed.

Example labels_and_text_values :
  filterSpecialTypes [field_value "labels"; field_value "text"] = [field_value "text"].
Proof. by vm_compute. Qed.

Example data_type_compared_in_lower_case :
  filterSpecialTypes [field_value "Labels"; field_value "TITLE"; None; field_value "Text"]
  = [None; field_value "Text"].
Proof. by vm_compute. Qed.
End examples.

(** * Further properties of the code *)

(** ** Page size and cursors *)

Lemma query_Values_paginationOptions (o : paginationOptions) (k : string) :
  query_Values o !! k
  = if decide (k = "before") then if decide (Before o = "") then None else Some [Before o]
    else if decide (k = "after") then if decide (After o = "") then None else Some [After o]
    else if decide (k = "per_page") then
      if decide (PerPage o = 0) then None else Some [pretty (PerPage o)]
    else None.
Proof.
  destruct o as [perPage after before].
  unfold query_Values, reflectValue, Values_Add. cbn.
  repeat case_bool_decide; cbn; repeat case_decide; by simplify_map_eq.
Qed.

Lemma extractPaginationOptions_Ok (request : CallToolRequest) (p : paginationOptions) :
  extractPaginationOptions request = Ok p →
  ∃ v : Z,
    OptionalIntParamWithDefault request "per_page" MaxProjectsPerPage = Ok v
    ∧ v ≠ 0
    ∧ PerPage p = (if decide (v > MaxProjectsPerPage) then MaxProjectsPerPage else v)
    ∧ OptionalParam_string request "after" = Ok (After p)
    ∧ OptionalParam_string request "before" = Ok (Before p).
Proof.
  unfold extractPaginationOptions.
  destruct (OptionalIntParamWithDefault request "per_page" MaxProjectsPerPage)
    as [v|e] eqn:Hv; [|done]. cbn.
  destruct (OptionalParam_string request "after") as [after|]; [|done]. cbn.
  destruct (OptionalParam_string request "before") as [before|]; [|done]. cbn.
  intros [= <-]. exists v. repeat split; try done.
  revert Hv. unfold OptionalIntParamWithDefault.
  destruct (OptionalIntParam request "per_page") as [w|]; [|done]. cbn.
  case_decide; intros [= <-]; [done|done].
Qed.

Lemma extracted_page_size_bounds (request : CallToolRequest) (p : paginationOptions) :
  extractPaginationOptions request = Ok p → PerPage p ≠ 0 ∧ PerPage p ≤ 50.
Proof.
  intros (v & _ & Hv & Hp & _ & _)%extractPaginationOptions_Ok.
  unfold MaxProjectsPerPage in Hp. case_decide; lia.
Qed.

(** X1. The extracted page size is never zero, so the query encoded from
    extracted pagination options always has the [per_page] key, with a value
    of at most 50. *)
Theorem extracted_page_size_always_encoded (request : CallToolRequest) (p : paginationOptions) :
  extractPaginationOptions request = Ok p →
  PerPage p ≠ 0 ∧ PerPage p ≤ 50
  ∧ query_Values p !! "per_page" = Some [pretty (PerPage p)]
  ∧ "per_page" ∈ (Encode_pairs (query_Values p)).*1.
Proof.
  intros [Hne Hle]%extracted_page_size_bounds.
  assert (query_Values p !! "per_page" = Some [pretty (PerPage p)]) as Hkey.
  { rewrite query_Values_paginationOptions. repeat case_decide; done. }
  repeat split; try done.
  apply Encode_pairs_keys. by eexists.
Qed.

Lemma extracted_page_size_always_encoded_witness :
  let p := {| PerPage := 50; After := ""; Before := "" |} in
  extractPaginationOptions (project_request []) = Ok p
  ∧ "per_page" ∈ (Encode_pairs (query_Values p)).*1.
Proof.
  intros p.
  assert (extractPaginationOptions (project_request []) = Ok p) as Hp by reflexivity.
  split; [exact Hp|].
  exact (proj2 (proj2 (proj2 (extracted_page_size_always_encoded _ p Hp)))).
Defined.

(** X2. A page size that is not zero and at most 50 is extracted as given,
    a negative one included: the page size is only ever lowered; a page size
    of zero gives 50. *)
Theorem page_size_in_range_unchanged (request : CallToolRequest) (f : Q) :
  GetArguments request !! "per_page" = Some (AFloat64 f) →
  float64_to_int f ≤ 50 →
  extractPaginationOptions request
  = (after ← OptionalParam_string request "after";
     before ← OptionalParam_string request "before";
     mret {| PerPage := if decide (float64_to_int f = 0) then 50 else float64_to_int f;
             After := after; Before := before |}).
Proof.
  intros Hf Hle.
  unfold extractPaginationOptions, OptionalIntParamWithDefault, OptionalIntParam,
    OptionalParam_float64, MaxProjectsPerPage.
  rewrite Hf. cbn.
  destruct (decide (float64_to_int f = 0)) as [H0|H0]; cbn.
  - by rewrite decide_False by lia.
  - by rewrite decide_False by lia.
Qed.

Lemma page_size_in_range_unchanged_witness :
  extractPaginationOptions (project_request [("per_page", number (-5))])
  = Ok {| PerPage := -5; After := ""; Before := "" |}
  ∧ extractPaginationOptions (project_request [("per_page", AFloat64 (1 # 2))])
    = Ok {| PerPage := 50; After := ""; Before := "" |}.
Proof.
  split.
  - rewrite (page_size_in_range_unchanged _ (inject_Z (-5))); by vm_compute.
  - rewrite (page_size_in_range_unchanged _ (1 # 2)); by vm_compute.
Defined.

(** ** The filter on longer inputs *)

(** X3. Filtering a concatenation is concatenating the filtered parts, and
    the filter never lengthens its input. *)
Theorem filterSpecialTypes_app `{DataTyped T} (fields more : list T) :
  filterSpecialTypes (fields ++ more) = filterSpecialTypes fields ++ filterSpecialTypes more
  ∧ (length (filterSpecialTypes fields) ≤ length fields)%nat.
Proof.
  rewrite !filterSpecialTypes_filter. split.
  - apply filter_app.
  - apply length_filter.
Qed.

Lemma empty_data_type_not_special : "" ∉ special_names.
Proof.
  unfold special_names. intros Hin.
  repeat (apply elem_of_cons in Hin as [Hin|Hin]; [done|]).
  by apply elem_of_nil in Hin.
Qed.

(** X4. A nil record has the empty data type, which is not special: nil
    field definitions and nil field values are kept, whatever the library's
    lower-casing. *)
Theorem filterSpecialTypes_keeps_nil `{GoLibrary} :
  (∀ fields : list (option projectV2Field),
     filterSpecialTypes (None :: fields) = None :: filterSpecialTypes fields)
  ∧ (∀ values : list (option projectV2ItemFieldValue),
       filterSpecialTypes (None :: values) = None :: filterSpecialTypes values)
  ∧ (∀ (fields : list (option projectV2Field)) (n : nat),
       filterSpecialTypes (replicate n None ++ fields)
       = replicate n None ++ filterSpecialTypes fields).
Proof.
  assert (∀ fields : list (option projectV2Field),
            filterSpecialTypes (None :: fields) = None :: filterSpecialTypes fields) as Hnil.
  { intros fields. rewrite !filterSpecialTypes_filter.
    by rewrite filter_cons_True by apply empty_data_type_not_special. }
  split; [exact Hnil|]. split.
  - intros values. rewrite !filterSpecialTypes_filter.
    by rewrite filter_cons_True by apply empty_data_type_not_special.
  - intros fields n. induction n as [|n IH]; [done|].
    cbn [replicate app]. by rewrite Hnil, IH.
Qed.

(** ** The update payload *)

(** X5. The builder looks at the keys "id" and "value" only: two maps that
    agree on them give the same outcome, whatever other keys they hold; and a
    bad "id" is reported before a missing "value". *)
Theorem buildUpdateProjectItem_other_keys_ignored (m m' : gmap string any) :
  m !! "id" = m' !! "id" →
  m !! "value" = m' !! "value" →
  buildUpdateProjectItem (Some m) = buildUpdateProjectItem (Some m')
  ∧ (m !! "id" = None → m !! "value" = None →
     buildUpdateProjectItem (Some m) = Err "updated_field.id is required").
Proof.
  intros Hid Hvalue. unfold buildUpdateProjectItem, map_index. rewrite Hid, Hvalue.
  split; [done|]. intros Hnone _. by rewrite Hnone.
Qed.

Lemma buildUpdateProjectItem_other_keys_ignored_witness :
  buildUpdateProjectItem (Some {[ "id" := number 7; "value" := ANil; "name" := AString "n" ]})
  = buildUpdateProjectItem (Some {[ "id" := number 7; "value" := ANil ]}).
Proof.
  apply (buildUpdateProjectItem_other_keys_ignored
           {[ "id" := number 7; "value" := ANil; "name" := AString "n" ]}
           {[ "id" := number 7; "value" := ANil ]}); by vm_compute.
Defined.

(** ** Requests of the handlers *)

(** The paths of a handler that looks at the [updated_field] argument. *)
Ltac handler_paths_with_field :=
  repeat handler_step;
  try match goal with
      | |- context [GetArguments ?req !! "updated_field"] =>
          destruct (GetArguments req !! "updated_field") as [[| | | | |[?|]]|] eqn:?
      end;
  handler_paths.

(** A request known to be among those issued on a path. *)
Ltac issued_request Hr :=
  first [ by apply elem_of_nil in Hr
        | apply list_elem_of_singleton in Hr as ->;
          match goal with
          | E : NewRequest _ _ _ _ = Ok _ |- _ => apply NewRequest_Ok in E as [-> ?]
          end ].

Lemma path_scope (ownerType owner rest : string) :
  (if decide (ownerType = "org") then "orgs/" +:+ owner +:+ rest
   else "users/" +:+ owner +:+ rest)
  = (if decide (ownerType = "org") then "orgs/" else "users/") +:+ owner +:+ rest.
Proof. by case_decide. Qed.

Lemma append_assoc (a b c : string) : (a +:+ b) +:+ c = a +:+ b +:+ c.
Proof.
  induction a as [|x a IH]; [done|].
  change (String x ((a +:+ b) +:+ c) = String x (a +:+ b +:+ c)). by rewrite IH.
Qed.

Lemma item_path_scope (ownerType owner : string) (projectNumber itemID : Z) :
  item_path ownerType owner projectNumber itemID
  = (if decide (ownerType = "org") then "orgs/" else "users/")
    +:+ owner +:+ "/projectsV2/" +:+ pretty projectNumber +:+ "/items/" +:+ pretty itemID.
Proof.
  unfold item_path, items_path. case_decide; by rewrite !append_assoc.
Qed.

Lemma field_path_scope (ownerType owner : string) (projectNumber fieldID : Z) :
  field_path ownerType owner projectNumber fieldID
  = (if decide (ownerType = "org") then "orgs/" else "users/")
    +:+ owner +:+ "/projectsV2/" +:+ pretty projectNumber +:+ "/fields/" +:+ pretty fieldID.
Proof.
  unfold field_path, fields_path. case_decide; by rewrite !append_assoc.
Qed.

Section request_properties.
Context `{GoLibrary}.
Variable getClient : result Client.
Variable Do_fields : Client → http_Request → DoResult (list (option projectV2Field)).
Variable Do_field : Client → http_Request → DoResult projectV2Field.
Variable json_Marshal_fields : list (option projectV2Field) → pageInfo → result string.
Variable json_Marshal_field : projectV2Field → result string.

(** X6. A run of a handler issues at most one request. *)
Theorem handlers_issue_at_most_one_request (req : CallToolRequest) :
  (length (issued (run (ListProjectItems getClient req))) ≤ 1)%nat
  ∧ (length (issued (run (GetProjectItem getClient req))) ≤ 1)%nat
  ∧ (length (issued (run (AddProjectItem getClient req))) ≤ 1)%nat
  ∧ (length (issued (run (UpdateProjectItem getClient req))) ≤ 1)%nat
  ∧ (length (issued (run (DeleteProjectItem getClient req))) ≤ 1)%nat
  ∧ (length (issued (run (ListProjectFields getClient Do_fields json_Marshal_fields req))) ≤ 1)%nat
  ∧ (length (issued (run (GetProjectField getClient Do_field json_Marshal_field req))) ≤ 1)%nat.
Proof.
  repeat split.
  - handler_outcome out. unfold ListProjectItems. handler_paths; cbn; lia.
  - handler_outcome out. unfold GetProjectItem. handler_paths; cbn; lia.
  - handler_outcome out. unfold AddProjectItem, expect_status. handler_paths; cbn; lia.
  - handler_outcome out. unfold UpdateProjectItem, expect_status.
    handler_paths_with_field; cbn; lia.
  - handler_outcome out. unfold DeleteProjectItem, expect_status. handler_paths; cbn; lia.
  - handler_outcome out. unfold ListProjectFields. handler_paths; cbn; lia.
  - handler_outcome out. unfold GetProjectField, expect_status. handler_paths; cbn; lia.
Qed.

(** X7. The handlers that read only issue [GET] requests without a body, and
    the delete handler a [DELETE] request without a body. *)
Theorem reading_handlers_issue_get (req : CallToolRequest) (r : http_Request) :
  (r ∈ issued (run (ListProjectItems getClient req)) → Method r = "GET" ∧ Body r = None)
  ∧ (r ∈ issued (run (GetProjectItem getClient req)) → Method r = "GET" ∧ Body r = None)
  ∧ (r ∈ issued (run (ListProjectFields getClient Do_fields json_Marshal_fields req)) →
     Method r = "GET" ∧ Body r = None)
  ∧ (r ∈ issued (run (GetProjectField getClient Do_field json_Marshal_field req)) →
     Method r = "GET" ∧ Body r = None)
  ∧ (r ∈ issued (run (DeleteProjectItem getClient req)) →
     Method r = "DELETE" ∧ Body r = None).
Proof.
  split; [|split; [|split; [|split]]].
  all: handler_outcome out;
    unfold ListProjectItems, GetProjectItem, ListProjectFields, GetProjectField,
      DeleteProjectItem, expect_status;
    handler_paths; intros Hr; issued_request Hr; done.
Qed.

(** X8. The owner scope of a target is decided by comparing [owner_type]
    with "org": any other value, whatever its letter case, addresses the
    user-scoped path. *)
Theorem owner_scope_of_targets (req : CallToolRequest) (r : http_Request) :
  (r ∈ issued (run (DeleteProjectItem getClient req)) →
   ∃ owner ownerType projectNumber itemID,
     RequiredParam_string req "owner" = Ok owner
     ∧ RequiredParam_string req "owner_type" = Ok ownerType
     ∧ RequiredInt req "project_number" = Ok projectNumber
     ∧ RequiredInt req "item_id" = Ok itemID
     ∧ Target r = (if decide (ownerType = "org") then "orgs/" else "users/")
                  +:+ owner +:+ "/projectsV2/" +:+ pretty projectNumber
                  +:+ "/items/" +:+ pretty itemID)
  ∧ (r ∈ issued (run (UpdateProjectItem getClient req)) →
     ∃ owner ownerType projectNumber itemID,
       RequiredParam_string req "owner" = Ok owner
       ∧ RequiredParam_string req "owner_type" = Ok ownerType
       ∧ RequiredInt req "project_number" = Ok projectNumber
       ∧ RequiredInt req "item_id" = Ok itemID
       ∧ Target r = (if decide (ownerType = "org") then "orgs/" else "users/")
                    +:+ owner +:+ "/projectsV2/" +:+ pretty projectNumber
                    +:+ "/items/" +:+ pretty itemID)
  ∧ (r ∈ issued (run (AddProjectItem getClient req)) →
     ∃ owner ownerType projectNumber,
       RequiredParam_string req "owner" = Ok owner
       ∧ RequiredParam_string req "owner_type" = Ok ownerType
       ∧ RequiredInt req "project_number" = Ok projectNumber
       ∧ Target r = (if decide (ownerType = "org") then "orgs/" else "users/")
                    +:+ owner +:+ "/projectsV2/" +:+ pretty projectNumber +:+ "/items")
  ∧ (r ∈ issued (run (GetProjectField getClient Do_field json_Marshal_field req)) →
     ∃ owner ownerType projectNumber fieldID,
       RequiredParam_string req "owner" = Ok owner
       ∧ RequiredParam_string req "owner_type" = Ok ownerType
       ∧ RequiredInt req "project_number" = Ok projectNumber
       ∧ RequiredInt req "field_id" = Ok fieldID
       ∧ Target r = (if decide (ownerType = "org") then "orgs/" else "users/")
                    +:+ owner +:+ "/projectsV2/" +:+ pretty projectNumber
                    +:+ "/fields/" +:+ pretty fieldID).
Proof.
  split; [|split; [|split]].
  - handler_outcome out. unfold DeleteProjectItem, expect_status.
    handler_paths; intros Hr; issued_request Hr;
      eexists _, _, _, _; repeat (split; [done|]); apply item_path_scope.
  - handler_outcome out. unfold UpdateProjectItem, expect_status.
    handler_paths_with_field; intros Hr; issued_request Hr;
      eexists _, _, _, _; repeat (split; [done|]); apply item_path_scope.
  - handler_outcome out. unfold AddProjectItem, expect_status.
    handler_paths; intros Hr; issued_request Hr;
      eexists _, _, _; repeat (split; [done|]); apply path_scope.
  - handler_outcome out. unfold GetProjectField, expect_status.
    handler_paths; intros Hr; issued_request Hr;
      eexists _, _, _, _; repeat (split; [done|]); apply field_path_scope.
Qed.
End request_properties.

(** ** Results of the handlers *)

Lemma filter_guard_redundant `{GoLibrary} (item : projectV2Item) :
  (if decide (0 < length (Fields item))%nat
   then set_Fields (filterSpecialTypes (Fields item)) item
   else item)
  = set_Fields (filterSpecialTypes (Fields item)) item.
Proof.
  case_decide as Hlen; [done|]. destruct item as [? ? ? ? ? ? fields ? ? ? ? ? ?].
  cbn in *. destruct fields; [done|]. cbn in Hlen. lia.
Qed.

Lemma filterSpecialTypes_not_special `{DataTyped T} (fields : list T) :
  Forall (λ f, getDataType f ∉ special_names) (filterSpecialTypes fields).
Proof.
  rewrite filterSpecialTypes_filter. apply Forall_forall. intros f Hf.
  by apply list_elem_of_filter in Hf as [? _].
Qed.

Section result_properties.
Context `{GoLibrary}.
Variable getClient : result Client.
Variable Do_fields : Client → http_Request → DoResult (list (option projectV2Field)).
Variable Do_field : Client → http_Request → DoResult projectV2Field.
Variable json_Marshal_fields : list (option projectV2Field) → pageInfo → result string.
Variable json_Marshal_field : projectV2Field → result string.
Variable ProjectV2 MinimalProject : Type.
Variable convertToMinimalProject : option ProjectV2 → MinimalProject.
Variable ListProjectsForOrg ListProjectsForUser :
  Client → string → ListProjectsOptions → DoResult (list (option ProjectV2)).
Variable GetProjectForOrg GetProjectForUser :
  Client → string → Z → DoResult (option ProjectV2).
Variable json_Marshal_projects : list MinimalProject → pageInfo → result string.
Variable json_Marshal_project : MinimalProject → result string.

#[local] Abbreviation list_fields := (ListProjectFields getClient Do_fields json_Marshal_fields).
#[local] Abbreviation get_field := (GetProjectField getClient Do_field json_Marshal_field).
#[local] Abbreviation list_projects :=
  (ListProjects getClient ProjectV2 MinimalProject convertToMinimalProject
     ListProjectsForOrg ListProjectsForUser json_Marshal_projects).
#[local] Abbreviation get_project :=
  (GetProject getClient ProjectV2 MinimalProject convertToMinimalProject
     GetProjectForOrg GetProjectForUser json_Marshal_project).

(** X9. [get_project_field] and [get_project] compare the status with 200: a
    response of another status is a failure carrying the body (or the error
    of reading it), and a success result comes only with status 200. *)
Theorem single_reads_check_status (req : CallToolRequest) :
  (∀ client r resp field,
     getClient = Ok client → issued (run (get_field req)) = [r] →
     Do_field client r = DoDone resp field →
     StatusCode resp ≠ StatusOK →
     returned (run (get_field req)) = status_failure "failed to get project field" resp)
  ∧ (∀ text, returned (run (get_field req)) = Ok (NewToolResultText text) →
     ∃ client r resp field,
       getClient = Ok client ∧ issued (run (get_field req)) = [r]
       ∧ Do_field client r = DoDone resp field ∧ StatusCode resp = StatusOK)
  ∧ (∀ projectNumber owner ownerType client resp project,
       RequiredInt req "project_number" = Ok projectNumber →
       RequiredParam_string req "owner" = Ok owner →
       RequiredParam_string req "owner_type" = Ok ownerType →
       getClient = Ok client →
       (if decide (ownerType = "org") then GetProjectForOrg client owner projectNumber
        else GetProjectForUser client owner projectNumber) = DoDone resp project →
       StatusCode resp ≠ StatusOK →
       returned (run (get_project req)) = status_failure "failed to get project" resp)
  ∧ (∀ text, returned (run (get_project req)) = Ok (NewToolResultText text) →
     ∃ projectNumber owner ownerType client resp project,
       RequiredInt req "project_number" = Ok projectNumber
       ∧ RequiredParam_string req "owner" = Ok owner
       ∧ RequiredParam_string req "owner_type" = Ok ownerType
       ∧ getClient = Ok client
       ∧ (if decide (ownerType = "org") then GetProjectForOrg client owner projectNumber
          else GetProjectForUser client owner projectNumber) = DoDone resp project
       ∧ StatusCode resp = StatusOK).
Proof.
  split; [|split; [|split]].
  - handler_outcome out. unfold GetProjectField, expect_status.
    handler_paths; intros client' r' resp' field' ? ? ? ?;
      unfold status_failure; same_call; done.
  - handler_outcome out. unfold GetProjectField, expect_status.
    handler_paths; intros text' ?; same_call; try done.
    by eexists _, _, _, _.
  - intros projectNumber owner ownerType client resp project Hnumber Howner Htype Hclient
      Hcall Hstatus.
    unfold run, GetProject. handler_open.
    rewrite Hnumber. handler_open. rewrite Howner. handler_open.
    rewrite Htype. handler_open. rewrite Hclient. handler_open.
    rewrite Hcall. cbv beta iota. unfold expect_status.
    rewrite decide_True by done. unfold status_failure.
    by destruct (ReadAll_Body resp); handler_open.
  - handler_outcome out. unfold GetProject, expect_status.
    handler_paths; intros text' ?; same_call; try done.
    by eexists _, _, _, _, _, _.
Qed.

(** X10. [list_project_fields] serialises the decoded field definitions with
    the special ones removed, together with the page info of the response,
    whatever the status of the response. *)
Theorem ListProjectFields_returns_filtered_fields (req : CallToolRequest)
    (client : Client) (r : http_Request) (resp : Response)
    (fields : list (option projectV2Field)) :
  getClient = Ok client →
  issued (run (list_fields req)) = [r] →
  Do_fields client r = DoDone resp fields →
  returned (run (list_fields req))
  = match json_Marshal_fields (filterSpecialTypes fields) (buildPageInfo resp) with
    | Ok text => Ok (NewToolResultText text)
    | Err e => Err ("failed to marshal response: " +:+ e)
    end
  ∧ Forall (λ f, getDataType f ∉ special_names) (filterSpecialTypes fields).
Proof.
  intros Hclient Hissued Hdo. split; [|apply filterSpecialTypes_not_special].
  revert Hissued. handler_outcome out. unfold ListProjectFields.
  handler_paths; intros ?; same_call; same_call; done.
Qed.

(** X11. The items that [list_project_items] and [get_project_item]
    serialise are the decoded ones with every field value of a special type
    removed, also where the source guards the filter by a length test: as many
    items, each with its other parts unchanged. *)
Theorem items_serialised_without_special_values (req : CallToolRequest)
    (client : Client) (r : http_Request) (resp : Response) :
  getClient = Ok client →
  (∀ items : list projectV2Item,
     issued (run (ListProjectItems getClient req)) = [r] →
     Do_items client r = DoDone resp items →
     let filtered := (λ item, set_Fields (filterSpecialTypes (Fields item)) item) <$> items in
     returned (run (ListProjectItems getClient req))
     = match json_Marshal (ItemsResponse filtered (buildPageInfo resp)) with
       | Ok text => Ok (NewToolResultText text)
       | Err e => Err ("failed to marshal response: " +:+ e)
       end
     ∧ length filtered = length items
     ∧ Forall (λ item, Forall (λ v, getDataType v ∉ special_names) (Fields item)) filtered)
  ∧ (∀ item : projectV2Item,
       issued (run (GetProjectItem getClient req)) = [r] →
       Do_item client r = DoDone resp item →
       let filtered := set_Fields (filterSpecialTypes (Fields item)) item in
       returned (run (GetProjectItem getClient req))
       = match json_Marshal (ItemValue filtered) with
         | Ok text => Ok (NewToolResultText text)
         | Err e => Err ("failed to marshal response: " +:+ e)
         end
       ∧ Forall (λ v, getDataType v ∉ special_names) (Fields filtered)
       ∧ ID filtered = ID item ∧ Content filtered = Content item
       ∧ Title filtered = Title item).
Proof.
  intros Hclient. split.
  - intros items Hissued Hdo filtered.
    assert ((λ item, if decide (0 < length (Fields item))%nat
                     then set_Fields (filterSpecialTypes (Fields item)) item
                     else item) <$> items = filtered) as Hfiltered.
    { apply list_fmap_ext. intros _ item _. apply filter_guard_redundant. }
    split; [|split].
    + rewrite (proj2 (ListProjectItems_status getClient req) client r resp items
                 Hclient Hissued Hdo).
      by rewrite Hfiltered.
    + apply length_fmap.
    + apply Forall_fmap, Forall_forall. intros item _. cbn.
      apply filterSpecialTypes_not_special.
  - intros item Hissued Hdo filtered.
    split; [|split; [apply filterSpecialTypes_not_special|done]].
    unfold filtered. rewrite <-(filter_guard_redundant item).
    remember (match json_Marshal
                      (ItemValue (if decide (0 < length (Fields item))%nat
                                  then set_Fields (filterSpecialTypes (Fields item)) item
                                  else item)) with
              | Ok text => Ok (NewToolResultText text)
              | Err e => Err ("failed to marshal response: " +:+ e)
              end) as expected eqn:Hexpected.
    revert Hissued. handler_outcome out. unfold GetProjectItem.
    handler_paths; intros ?; same_call; try done;
      repeat case_decide; try done; same_call; done.
Qed.

(** X12. When the call of the client fails, every handler returns the API
    error response made of its own message, the response and the error, and
    nothing of the decoded value. *)
Theorem transport_error_passed_through (req : CallToolRequest) (client : Client)
    (r : http_Request) (resp : option Response) (err : error) :
  getClient = Ok client →
  (issued (run (GetProjectItem getClient req)) = [r] → Do_item client r = DoError resp err →
   returned (run (GetProjectItem getClient req))
   = Ok (NewGitHubAPIErrorResponse "failed to get project item" resp err))
  ∧ (issued (run (AddProjectItem getClient req)) = [r] → Do_item client r = DoError resp err →
     returned (run (AddProjectItem getClient req))
     = Ok (NewGitHubAPIErrorResponse "failed to add a project item" resp err))
  ∧ (issued (run (UpdateProjectItem getClient req)) = [r] →
     Do_item client r = DoError resp err →
     returned (run (UpdateProjectItem getClient req))
     = Ok (NewGitHubAPIErrorResponse "failed to update a project item" resp err))
  ∧ (issued (run (DeleteProjectItem getClient req)) = [r] →
     Do_nothing client r = DoError resp err →
     returned (run (DeleteProjectItem getClient req))
     = Ok (NewGitHubAPIErrorResponse "failed to delete a project item" resp err))
  ∧ (issued (run (list_fields req)) = [r] → Do_fields client r = DoError resp err →
     returned (run (list_fields req))
     = Ok (NewGitHubAPIErrorResponse "failed to list project fields" resp err))
  ∧ (issued (run (get_field req)) = [r] → Do_field client r = DoError resp err →
     returned (run (get_field req))
     = Ok (NewGitHubAPIErrorResponse "failed to get project field" resp err)).
Proof.
  intros Hclient. split; [|split; [|split; [|split; [|split]]]].
  - handler_outcome out. unfold GetProjectItem.
    handler_paths; intros ? ?; same_call; done.
  - handler_outcome out. unfold AddProjectItem, expect_status.
    handler_paths; intros ? ?; same_call; done.
  - handler_outcome out. unfold UpdateProjectItem, expect_status.
    handler_paths_with_field; intros ? ?; same_call; done.
  - handler_outcome out. unfold DeleteProjectItem, expect_status.
    handler_paths; intros ? ?; same_call; done.
  - handler_outcome out. unfold ListProjectFields.
    handler_paths; intros ? ?; same_call; done.
  - handler_outcome out. unfold GetProjectField, expect_status.
    handler_paths; intros ? ?; same_call; done.
Qed.

Lemma foldl_append_fmap {A B} (f : A → B) (acc : list B) (l : list A) :
  foldl (λ acc x, acc ++ [f x]) acc l = acc ++ (f <$> l).
Proof.
  revert acc. induction l as [|x l IH]; intros acc; cbn.
  - by rewrite app_nil_r.
  - by rewrite IH, <-app_assoc.
Qed.

(** X13. [list_projects] hands the client a page size that is not zero and
    at most 50, the cursors and the query as given, asks the organisation
    call exactly when [owner_type] is "org", and serialises the converted
    projects in the order received with the page info of the response. *)
Theorem ListProjects_options_and_result (req : CallToolRequest)
    (owner ownerType queryStr : string) (pagination : paginationOptions) (client : Client) :
  RequiredParam_string req "owner" = Ok owner →
  RequiredParam_string req "owner_type" = Ok ownerType →
  OptionalParam_string req "query" = Ok queryStr →
  extractPaginationOptions req = Ok pagination →
  getClient = Ok client →
  let opts := {| list_PerPage := PerPage pagination; list_After := After pagination;
                 list_Before := Before pagination; list_Query := queryStr |} in
  list_PerPage opts ≠ 0 ∧ list_PerPage opts ≤ 50
  ∧ returned (run (list_projects req))
    = match (if decide (ownerType = "org") then ListProjectsForOrg client owner opts
             else ListProjectsForUser client owner opts) with
      | DoError resp err => Ok (NewGitHubAPIErrorResponse "failed to list projects" resp err)
      | DoDone resp projects =>
          match json_Marshal_projects (convertToMinimalProject <$> projects)
                  (buildPageInfo resp) with
          | Ok text => Ok (NewToolResultText text)
          | Err e => Err ("failed to marshal response: " +:+ e)
          end
      end.
Proof.
  intros Howner Htype Hquery Hpagination Hclient opts.
  destruct (extractPaginationOptions_Ok _ _ Hpagination) as (v & _ & Hv & Hp & _ & _).
  unfold MaxProjectsPerPage in Hp.
  split; [cbn; case_decide; lia|]. split; [cbn; case_decide; lia|].
  unfold run, ListProjects. handler_open.
  rewrite Howner. handler_open. rewrite Htype. handler_open.
  rewrite Hquery. handler_open. rewrite Hpagination. handler_open.
  rewrite Hclient. handler_open. fold opts.
  destruct (if decide (ownerType = "org") then ListProjectsForOrg client owner opts
            else ListProjectsForUser client owner opts) as [resp err|resp projects];
    [by handler_open|].
  rewrite foldl_append_fmap. cbn [app].
  by destruct (json_Marshal_projects _ _); handler_open.
Qed.
End result_properties.

(** ** Failures before the request *)

Lemma addOptions_Ok `{GoLibrary} `{UrlTagged T} (s target : string) (o : T) :
  addOptions s (Options o) = Ok target
  ↔ ∃ u : URL, url_Parse s = Ok u
               ∧ target = URL_String (set_RawQuery (Values_Encode (query_Values o)) u).
Proof.
  unfold addOptions. split.
  - destruct (url_Parse s) as [u|]; [|done]. cbn. intros [= <-]. by exists u.
  - intros (u & -> & ->). done.
Qed.

Section early_properties.
Context `{GoLibrary}.
Variable Do_fields : Client → http_Request → DoResult (list (option projectV2Field)).
Variable Do_field : Client → http_Request → DoResult projectV2Field.
Variable json_Marshal_fields : list (option projectV2Field) → pageInfo → result string.
Variable json_Marshal_field : projectV2Field → result string.

(** X14. Every request of [list_project_items] is a [GET] of the items path
    as [url.Parse] reads it, with the query replaced by the encoding of a page
    size that is not zero and at most 50, the two cursors, the query
    parameter and the comma-joined field identifiers. *)
Theorem ListProjectItems_request_target (getClient : result Client) (req : CallToolRequest)
    (r : http_Request) :
  r ∈ issued (run (ListProjectItems getClient req)) →
  ∃ owner ownerType projectNumber queryStr fields pagination u,
    RequiredParam_string req "owner" = Ok owner
    ∧ RequiredParam_string req "owner_type" = Ok ownerType
    ∧ RequiredInt req "project_number" = Ok projectNumber
    ∧ OptionalParam_string req "query" = Ok queryStr
    ∧ OptionalStringArrayParam req "fields" = Ok fields
    ∧ extractPaginationOptions req = Ok pagination
    ∧ PerPage pagination ≠ 0 ∧ PerPage pagination ≤ 50
    ∧ url_Parse (items_path ownerType owner projectNumber) = Ok u
    ∧ Method r = "GET"
    ∧ Target r
      = URL_String
          (set_RawQuery
             (Values_Encode
                (query_Values
                   {| opts_pagination := pagination;
                      opts_filter := {| Query := queryStr |};
                      opts_selection := {| FieldIDs := strings_Join fields "," |} |}))
             u).
Proof.
  handler_outcome out. unfold ListProjectItems.
  handler_paths; intros Hr; issued_request Hr.
  all: match goal with
       | E : addOptions _ _ = Ok _ |- _ => apply addOptions_Ok in E as (u & Hu & ->)
       end.
  all: match goal with
       | E : extractPaginationOptions _ = Ok ?p |- _ =>
           destruct (extracted_page_size_bounds _ _ E) as [? ?]
       end.
  all: by eexists _, _, _, _, _, _, u.
Qed.

(** X15. A base path that [url.Parse] rejects stops the three handlers that
    encode options before any request: the two list handlers return an error
    that wraps the parse error, [get_project_item] a tool error with the parse
    error itself. *)
Theorem unparsable_path_reported (getClient : result Client) (req : CallToolRequest)
    (owner ownerType : string) (projectNumber : Z) (client : Client) (e : error) :
  RequiredParam_string req "owner" = Ok owner →
  RequiredParam_string req "owner_type" = Ok ownerType →
  RequiredInt req "project_number" = Ok projectNumber →
  getClient = Ok client →
  (∀ queryStr fields pagination,
     OptionalParam_string req "query" = Ok queryStr →
     OptionalStringArrayParam req "fields" = Ok fields →
     extractPaginationOptions req = Ok pagination →
     url_Parse (items_path ownerType owner projectNumber) = Err e →
     run (ListProjectItems getClient req)
     = {| issued := []; returned := Err ("failed to add options to request: " +:+ e) |})
  ∧ (∀ pagination,
       extractPaginationOptions req = Ok pagination →
       url_Parse (fields_path ownerType owner projectNumber) = Err e →
       run (ListProjectFields getClient Do_fields json_Marshal_fields req)
       = {| issued := []; returned := Err ("failed to add options to request: " +:+ e) |})
  ∧ (∀ itemID fields,
       RequiredInt req "item_id" = Ok itemID →
       OptionalStringArrayParam req "fields" = Ok fields →
       url_Parse (item_path ownerType owner projectNumber itemID) = Err e →
       run (GetProjectItem getClient req)
       = {| issued := []; returned := Ok (NewToolResultError e) |}).
Proof.
  intros Howner Htype Hnumber Hclient. split; [|split].
  - intros queryStr fields pagination Hquery Hfields Hpagination Hparse.
    unfold run, ListProjectItems. handler_open.
    rewrite Howner. handler_open. rewrite Htype. handler_open.
    rewrite Hnumber. handler_open. rewrite Hquery. handler_open.
    rewrite Hfields. handler_open. rewrite Hpagination. handler_open.
    rewrite Hclient. handler_open. unfold addOptions. rewrite Hparse. by handler_open.
  - intros pagination Hpagination Hparse.
    unfold run, ListProjectFields. handler_open.
    rewrite Howner. handler_open. rewrite Htype. handler_open.
    rewrite Hnumber. handler_open. rewrite Hpagination. handler_open.
    rewrite Hclient. handler_open. unfold addOptions. rewrite Hparse. by handler_open.
  - intros itemID fields Hitem Hfields Hparse.
    unfold run, GetProjectItem. handler_open.
    rewrite Howner. handler_open. rewrite Htype. handler_open.
    rewrite Hnumber. handler_open. rewrite Hitem. handler_open.
    rewrite Hfields. handler_open. rewrite Hclient. handler_open.
    unfold addOptions. rewrite Hparse. by handler_open.
Qed.


(** X17. [update_project_item] wants [updated_field] to be an object: when it
    is absent the parameter is reported missing, when it is null, a nil map or
    of any other kind it is reported not to be an object, and no request is
    issued. *)
Theorem UpdateProjectItem_requires_object (getClient : result Client) (req : CallToolRequest)
    (owner ownerType : string) (projectNumber itemID : Z) :
  RequiredParam_string req "owner" = Ok owner →
  RequiredParam_string req "owner_type" = Ok ownerType →
  RequiredInt req "project_number" = Ok projectNumber →
  RequiredInt req "item_id" = Ok itemID →
  (GetArguments req !! "updated_field" = None →
   run (UpdateProjectItem getClient req)
   = {| issued := [];
        returned := Ok (NewToolResultError "missing required parameter: updated_field") |})
  ∧ (∀ v : any,
       GetArguments req !! "updated_field" = Some v →
       (∀ m : gmap string any, v ≠ AMap (Some m)) →
       run (UpdateProjectItem getClient req)
       = {| issued := [];
            returned := Ok (NewToolResultError "field_value must be an object") |}).
Proof.
  intros Howner Htype Hnumber Hitem. split.
  - intros Hfield. unfold run, UpdateProjectItem. handler_open.
    rewrite Howner. handler_open. rewrite Htype. handler_open.
    rewrite Hnumber. handler_open. rewrite Hitem. cbv beta iota.
    rewrite Hfield. by handler_open.
  - intros v Hfield Hv. unfold run, UpdateProjectItem. handler_open.
    rewrite Howner. handler_open. rewrite Htype. handler_open.
    rewrite Hnumber. handler_open. rewrite Hitem. cbv beta iota.
    rewrite Hfield.
    destruct v as [| | | | |[m|]]; try (by handler_open). by destruct (Hv m).
Qed.
End early_properties.

(** ** The further properties on examples *)

Lemma reading_handlers_issue_get_witness :
  let client := fixed_client (ok_response 204 "") [] empty_item in
  let req := project_request [("item_id", number 200)] in
  let r := {| Method := "DELETE"; Target := "orgs/octo/projectsV2/7/items/200";
              Body := None |} in
  issued (run (DeleteProjectItem (Ok client) req)) = [r]
  ∧ Method r = "DELETE" ∧ Body r = None.
Proof.
  intros client req r.
  assert (issued (run (DeleteProjectItem (Ok client) req)) = [r]) as Hissued by by vm_compute.
  split; [exact Hissued|].
  apply (proj2 (proj2 (proj2 (proj2
           (reading_handlers_issue_get (H:=ascii_library) (Ok client)
              (fields_of [] (ok_response 200 "")) (field_of empty_field (ok_response 200 ""))
              count_fields name_field req r))))).
  rewrite Hissued. by apply list_elem_of_singleton.
Defined.

Lemma owner_scope_of_targets_witness :
  let client := fixed_client (ok_response 204 "") [] empty_item in
  let req := {| GetArguments :=
                  list_to_map [("owner", AString "octo"); ("owner_type", AString "Org");
                               ("project_number", number 7); ("item_id", number 200)] |} in
  issued (run (DeleteProjectItem (Ok client) req))
  = [{| Method := "DELETE"; Target := "users/octo/projectsV2/7/items/200"; Body := None |}]
  ∧ ∃ (owner ownerType : string) (projectNumber itemID : Z),
      RequiredParam_string req "owner_type" = Ok ownerType
      ∧ Target {| Method := "DELETE"; Target := "users/octo/projectsV2/7/items/200";
                  Body := None |}
        = (if decide (ownerType = "org") then "orgs/" else "users/")
          +:+ owner +:+ "/projectsV2/" +:+ pretty projectNumber
          +:+ "/items/" +:+ pretty itemID.
Proof.
  intros client req.
  assert (issued (run (DeleteProjectItem (Ok client) req))
          = [{| Method := "DELETE"; Target := "users/octo/projectsV2/7/items/200";
                Body := None |}]) as Hissued by by vm_compute.
  split; [exact Hissued|].
  destruct (proj1 (owner_scope_of_targets (H:=ascii_library) (Ok client)
                     (field_of empty_field (ok_response 200 ""))
                     name_field req
                     {| Method := "DELETE"; Target := "users/octo/projectsV2/7/items/200";
                        Body := None |}))
    as (owner & ownerType & projectNumber & itemID & _ & Htype & _ & _ & Htarget).
  { rewrite Hissued. by apply list_elem_of_singleton. }
  by exists owner, ownerType, projectNumber, itemID.
Defined.

Lemma single_reads_check_status_witness :
  let resp := ok_response 404 "not found" in
  let client := fixed_client resp [] empty_item in
  returned (run (GetProjectField (Ok client) (field_of empty_field resp)
                   name_field (project_request [("field_id", number 5)])))
  = Ok (NewToolResultError "failed to get project field: not found")
  ∧ returned (run (GetProject (Ok client) string string
                     project_title (project_of (Some "roadmap") resp)
                     (project_of (Some "roadmap") resp) Ok (project_request [])))
    = Ok (NewToolResultError "failed to get project: not found").
Proof.
  intros resp client.
  pose proof (single_reads_check_status (Ok client)
                (field_of empty_field resp) name_field string string project_title
                (project_of (Some "roadmap") resp) (project_of (Some "roadmap") resp) Ok)
    as Hspec.
  split.
  - apply (proj1 (Hspec (project_request [("field_id", number 5)])) client
             {| Method := "GET"; Target := "orgs/octo/projectsV2/7/fields/5"; Body := None |}
             resp empty_field); by vm_compute.
  - apply (proj1 (proj2 (proj2 (Hspec (project_request []))))
             7 "octo" "org" client resp (Some "roadmap")); by vm_compute.
Defined.

Lemma ListProjectFields_returns_filtered_fields_witness :
  let resp := ok_response 200 "" in
  let client := fixed_client resp [] empty_item in
  let fields := [field_definition "Labels"; field_definition "text"] in
  returned (run (ListProjectFields (H:=ascii_library) (Ok client) (fields_of fields resp)
                   count_fields (project_request [])))
  = Ok (NewToolResultText "fields:1").
Proof.
  intros resp client fields.
  etrans.
  - apply (ListProjectFields_returns_filtered_fields (H:=ascii_library) (Ok client)
             (fields_of fields resp) count_fields (project_request []) client
             {| Method := "GET"; Target := "orgs/octo/projectsV2/7/fields?per_page=50";
                Body := None |}
             resp fields); by vm_compute.
  - by vm_compute.
Defined.

Lemma items_serialised_without_special_values_witness :
  let resp := ok_response 200 "" in
  let item := set_Fields [field_value "labels"; field_value "text"] empty_item in
  let client := fixed_client resp [item] item in
  returned (run (ListProjectItems (H:=ascii_library) (Ok client) (project_request [])))
  = Ok (NewToolResultText "items:1")
  ∧ returned (run (GetProjectItem (H:=ascii_library) (Ok client)
                     (project_request [("item_id", number 200)])))
    = Ok (NewToolResultText "item").
Proof.
  intros resp item client.
  pose proof (items_serialised_without_special_values (H:=ascii_library) (Ok client)) as Hspec.
  split.
  - pose (r := {| Method := "GET"; Target := "orgs/octo/projectsV2/7/items?per_page=50";
                  Body := None |}).
    assert (issued (run (ListProjectItems (H:=ascii_library) (Ok client) (project_request [])))
            = [r]) as Hissued by (vm_compute; reflexivity).
    destruct (proj1 (Hspec (project_request []) client r resp eq_refl) [item] Hissued eq_refl)
      as (Hreturned & _ & _).
    etrans; [exact Hreturned|]. vm_compute. reflexivity.
  - pose (r := {| Method := "GET"; Target := "orgs/octo/projectsV2/7/items/200";
                  Body := None |}).
    assert (issued (run (GetProjectItem (H:=ascii_library) (Ok client)
                           (project_request [("item_id", number 200)])))
            = [r]) as Hissued by (vm_compute; reflexivity).
    destruct (proj2 (Hspec (project_request [("item_id", number 200)]) client r resp eq_refl)
                item Hissued eq_refl) as (Hreturned & _).
    etrans; [exact Hreturned|]. vm_compute. reflexivity.
Defined.

Lemma transport_error_passed_through_witness :
  returned (run (AddProjectItem (H:=ascii_library) (Ok (failing_client None "no route"))
                   (project_request [("item_id", number 200); ("item_type", AString "issue")])))
  = Ok (NewGitHubAPIErrorResponse "failed to add a project item" None "no route").
Proof.
  apply (proj1 (proj2 (transport_error_passed_through (H:=ascii_library)
                         (Ok (failing_client None "no route"))
                         (fields_of [] (ok_response 200 "")) 
                         (field_of empty_field (ok_response 200 ""))
                         count_fields name_field
                         (project_request [("item_id", number 200);
                                           ("item_type", AString "issue")])
                         (failing_client None "no route")
                         {| Method := "POST"; Target := "orgs/octo/projectsV2/7/items";
                            Body := Some (NewItemBody {| new_ID := 200;
                                                         new_Type := "Issue" |}) |}
                         None "no route" eq_refl))); by vm_compute.
Defined.

Lemma ListProjects_options_and_result_witness :
  let resp := ok_response 200 "" in
  let client := fixed_client resp [] empty_item in
  returned (run (ListProjects (Ok client) string string project_title
                   (projects_of [Some "a"; None; Some "b"] resp) (projects_of [] resp)
                   join_titles (project_request [("per_page", number 200)])))
  = Ok (NewToolResultText "a;;b").
Proof.
  intros resp client.
  etrans.
  - apply (ListProjects_options_and_result (Ok client) string string project_title
             (projects_of [Some "a"; None; Some "b"] resp) (projects_of [] resp) join_titles
             (project_request [("per_page", number 200)]) "octo" "org" ""
             {| PerPage := 50; After := ""; Before := "" |} client); by vm_compute.
  - by vm_compute.
Defined.

Lemma ListProjectItems_request_target_witness :
  let client := fixed_client (ok_response 200 "") [] empty_item in
  let req := project_request [("per_page", number 200); ("query", AString "is:open")] in
  issued (run (ListProjectItems (H:=ascii_library) (Ok client) req))
  = [{| Method := "GET"; Target := "orgs/octo/projectsV2/7/items?per_page=50&q=is:open";
        Body := None |}]
  ∧ ∃ pagination : paginationOptions,
      extractPaginationOptions req = Ok pagination ∧ PerPage pagination ≤ 50.
Proof.
  intros client req.
  assert (issued (run (ListProjectItems (H:=ascii_library) (Ok client) req))
          = [{| Method := "GET";
                Target := "orgs/octo/projectsV2/7/items?per_page=50&q=is:open";
                Body := None |}]) as Hissued by by vm_compute.
  split; [exact Hissued|].
  destruct (ListProjectItems_request_target (H:=ascii_library) (Ok client) req
              {| Method := "GET"; Target := "orgs/octo/projectsV2/7/items?per_page=50&q=is:open";
                 Body := None |})
    as (owner & ownerType & projectNumber & queryStr & fields & pagination & u
        & _ & _ & _ & _ & _ & Hpagination & _ & Hle & _).
  { rewrite Hissued. apply list_elem_of_singleton. reflexivity. }
  exists pagination. split; [exact Hpagination|exact Hle].
Defined.

Lemma unparsable_path_reported_witness :
  let client := fixed_client (ok_response 200 "") [] empty_item in
  run (GetProjectItem (H:=unparsable_library) (Ok client)
         (project_request [("item_id", number 200)]))
  = {| issued := []; returned := Ok (NewToolResultError "invalid URL") |}.
Proof.
  intros client.
  apply (proj2 (proj2 (unparsable_path_reported (H:=unparsable_library)
                         (fields_of [] (ok_response 200 "")) count_fields (Ok client)
                         (project_request [("item_id", number 200)])
                         "octo" "org" 7 client "invalid URL"
                         eq_refl eq_refl eq_refl eq_refl)) 200 []); by vm_compute.
Defined.


Lemma UpdateProjectItem_requires_object_witness :
  let client := fixed_client (ok_response 200 "") [] empty_item in
  run (UpdateProjectItem (H:=ascii_library) (Ok client)
         (project_request [("item_id", number 200); ("updated_field", ANil)]))
  = {| issued := []; returned := Ok (NewToolResultError "field_value must be an object") |}.
Proof.
  intros client.
  apply (proj2 (UpdateProjectItem_requires_object (H:=ascii_library) (Ok client)
                  (project_request [("item_id", number 200); ("updated_field", ANil)])
                  "octo" "org" 7 200 eq_refl eq_refl eq_refl eq_refl) ANil);
    by vm_compute.
Defined.
